(** * PlayerTracker (Trackers/player_tracker.py)

    A shallow embedding of the [PlayerTracker] class and the properties of
    its batch detector, its disk cache, its renderer and its player selector.

    Python values are modelled as follows.
    - A Python [float] is an IEEE 754 binary64 number: Rocq's primitive
      [float], with [float("inf")] as [infinity] and [<] as [PrimFloat.ltb].
    - A track id is a Python [int]: [Z].
    - A bounding box is the four-element list [box.xyxy.tolist()[0]]: a
      record of four floats.
    - A [dict] keeps its insertion order, and the selector depends on it, so a
      dict is the list of its items, with keys that do not repeat.
    - An exception is a value of [exn]; a computation that may raise returns
      a [result]; a method that also reads or writes objects that outlive it
      (the YOLO model, the files, the frame buffers) is a function from the
      state before to a [result] and the state after. *)

From Stdlib Require Import ZArith List Floats Lia.
From stdpp Require Import gmap strings list fin_maps pretty.

(** ** Exceptions and results *)

(** The built-in exceptions the methods of the class can raise. *)
Inductive exn : Type :=
| IndexError
| KeyError
| AttributeError
| ValueError
| OverflowError
| FileNotFoundError
| UnpicklingError
| Cv2Error.

Inductive result (A : Type) : Type :=
| Ok (a : A)
| Raise (e : exn).

Arguments Ok {A} a.
Arguments Raise {A} e.

#[global] Instance result_ret : MRet result := fun A a => Ok a.
#[global] Instance result_bind : MBind result := fun A B k c =>
  match c with
  | Ok a => k a
  | Raise e => Raise e
  end.

(** [l[i]] for a list and an index that is not negative. *)
Definition py_index {A : Type} (l : list A) (i : nat) : result A :=
  match l !! i with
  | Some x => Ok x
  | None => Raise IndexError
  end.

(** [range(start, stop)]: empty as soon as [stop <= start]. *)
Definition py_range (start stop : nat) : list nat := seq start (stop - start).

(** [int(x)] for a float [x]: truncation toward zero; [OverflowError] on an
    infinity and [ValueError] on a NaN. *)
Definition py_int (x : float) : result Z :=
  match Prim2SF x with
  | S754_zero _ => Ok 0%Z
  | S754_infinity _ => Raise OverflowError
  | S754_nan => Raise ValueError
  | S754_finite s m e =>
      let magnitude := Z.shiftl (Z.pos m) e in
      Ok (if s then (- magnitude)%Z else magnitude)
  end.

(** ** Data model *)

Record bbox : Type := Bbox {
  bbox_x1 : float;
  bbox_y1 : float;
  bbox_x2 : float;
  bbox_y2 : float
}.

(** One frame's detections, [{track_id: bbox}], as the list [d.items()]. *)
Abbreviation detection_set := (list (Z * bbox)).

(** The keys of a dict do not repeat. *)
Definition dict_wf {V : Type} (d : list (Z * V)) : Prop := NoDup (d.*1).

(** [d[k] = v]: the value of a key that is there is replaced where it
    stands; a new key goes to the end. *)
Fixpoint dict_setitem {V : Type} (k : Z) (v : V) (d : list (Z * V)) : list (Z * V) :=
  match d with
  | [] => [(k, v)]
  | (k', v') :: rest =>
      if decide (k' = k) then (k, v) :: rest else (k', v') :: dict_setitem k v rest
  end.

(** [d.get(k)]. *)
Fixpoint dict_get {V : Type} (d : list (Z * V)) (k : Z) : option V :=
  match d with
  | [] => None
  | (k', v) :: rest => if decide (k' = k) then Some v else dict_get rest k
  end.

(** ** Utils.bbox_utils

    [get_center_of_bbox] and [measure_distance] are imported from
    [Utils.bbox_utils], which is not part of the source at hand: the tracker
    is defined over any implementation of the two. The center of a box is a
    value every box has (its midpoint, whatever the type of points); the
    distance function is handed whatever sequence the caller passes, and may
    raise on it. *)
Class BboxUtils : Type := {
  point : Type;
  get_center_of_bbox : bbox -> point;
  measure_distance : point -> list float -> result float
}.

(** ** Player selection *)

Section Selector.
Context `{BboxUtils}.

(** The loop over the keypoints of [choose_players], for the indices [range]
    that are left and the [min_distance] so far:
<<
    for i in range(len(court_keypoints),2):
        court_keypoint = (court_keypoints[i], court_keypoints[i+1])
        distance = measure_distance(player_center, court_keypoints)
        if distance < min_distance:
            min_distance = distance
>> *)
Fixpoint keypoint_loop (player_center : point) (court_keypoints : list float)
    (range : list nat) (min_distance : float) : result float :=
  match range with
  | [] => Ok min_distance
  | i :: range' =>
      kx ← py_index court_keypoints i;
      ky ← py_index court_keypoints (i + 1);
      let court_keypoint := (kx, ky) in
      distance ← measure_distance player_center court_keypoints;
      keypoint_loop player_center court_keypoints range'
        (if PrimFloat.ltb distance min_distance then distance else min_distance)
  end.

(** The loop over the detections of [choose_players], for the items that are
    left and the list [distances] so far. *)
Fixpoint player_loop (court_keypoints : list float) (items : list (Z * bbox))
    (distances : list (Z * float)) : result (list (Z * float)) :=
  match items with
  | [] => Ok distances
  | (track_id, bbox) :: items' =>
      let player_center := get_center_of_bbox bbox in
      min_distance ←
        keypoint_loop player_center court_keypoints
          (py_range (length court_keypoints) 2) infinity;
      player_loop court_keypoints items' (distances ++ [(track_id, min_distance)])
  end.

(** [distances.sort(key=lambda x: x[1])]: a stable sort on the second
    component, which only ever compares two keys with [<]. An element moves
    behind another one only when that one's key is smaller. *)
Fixpoint sort_insert (x : Z * float) (sorted : list (Z * float)) : list (Z * float) :=
  match sorted with
  | [] => [x]
  | y :: sorted' =>
      if PrimFloat.ltb (snd y) (snd x) then y :: sort_insert x sorted' else x :: sorted
  end.

Definition sort_by_distance (distances : list (Z * float)) : list (Z * float) :=
  foldr sort_insert [] distances.

Definition choose_players (court_keypoints : list float)
    (player_detections_dict : detection_set) : result (list Z) :=
  distances ← player_loop court_keypoints player_detections_dict [];
  let distances := sort_by_distance distances in
  let chosen_players := (take 2 distances).*1 in
  Ok chosen_players.

(** The dict comprehension of [choose_and_filter_players]:
    [{track_id: bbox for track_id, bbox in player_dict.items()
      if track_id in chosen_players}], for the items that are left and the
    dict built so far. *)
Fixpoint filter_loop (chosen_players : list Z) (items : list (Z * bbox))
    (filtered_player_dict : detection_set) : detection_set :=
  match items with
  | [] => filtered_player_dict
  | (track_id, bbox) :: items' =>
      filter_loop chosen_players items'
        (if bool_decide (track_id ∈ chosen_players)
         then dict_setitem track_id bbox filtered_player_dict
         else filtered_player_dict)
  end.

(** The loop over the frames of [choose_and_filter_players]. *)
Fixpoint frames_filter_loop (chosen_players : list Z) (player_detections : list detection_set)
    (filtered_player_detections : list detection_set) : list detection_set :=
  match player_detections with
  | [] => filtered_player_detections
  | player_dict :: player_detections' =>
      let filtered_player_dict := filter_loop chosen_players player_dict [] in
      frames_filter_loop chosen_players player_detections'
        (filtered_player_detections ++ [filtered_player_dict])
  end.

Definition choose_and_filter_players (court_keypoints : list float)
    (player_detections : list detection_set) : result (list detection_set) :=
  player_detections_first_frame ← py_index player_detections 0;
  chosen_players ← choose_players court_keypoints player_detections_first_frame;
  Ok (frames_filter_loop chosen_players player_detections []).

(** The list [distances] when no distance was ever measured: every player
    still has the [float("inf")] the loop starts from. *)
Definition unscored (items : list (Z * bbox)) : list (Z * float) :=
  (fun item : Z * bbox => (item.1, infinity)) <$> items.

(** The items of [d] whose track id is one of [chosen_players], in the
    order of [d]. *)
Definition kept (chosen_players : list Z) (d : detection_set) : detection_set :=
  filter (fun item : Z * bbox => item.1 ∈ chosen_players) d.

End Selector.

(** ** State

    A method that uses the model, the files or the frame buffers is a
    function of the state [S] it runs in. A raised exception keeps the state
    reached when it was raised. *)
Definition M (S A : Type) : Type := S -> result A * S.

#[global] Instance M_ret {S : Type} : MRet (M S) := fun A a s => (Ok a, s).
#[global] Instance M_bind {S : Type} : MBind (M S) := fun A B k c s =>
  match c s with
  | (Ok a, s') => k a s'
  | (Raise e, s') => (Raise e, s')
  end.

Definition lift {S A : Type} (r : result A) : M S A := fun s => (r, s).

(** ** Detection *)

(** One element of [results.boxes]: [box.id] is [None] or a one-element
    tensor holding the track id, [box.xyxy] holds the four corners and
    [box.cls] the class id. *)
Record yolo_box : Type := YoloBox {
  box_id : option Z;
  box_xyxy : bbox;
  box_cls : Z
}.

(** One element of the list [model.track] returns: [results.names] maps a
    class id to its name. *)
Record yolo_results : Type := YoloResults {
  names : gmap Z string;
  boxes : list yolo_box
}.

(** The ultralytics model: [track] is [self.model.track(frame, persist=True)],
    which reads and updates the tracker's memory of the earlier frames. *)
Class Yolo : Type := {
  frame : Type;
  model : Type;
  track : model -> frame -> model * list yolo_results
}.

(** The pickle module, on detection sequences: [pickle_dumps] is what
    [pickle.dump] writes and [pickle_loads] is what [pickle.load] reads, when
    the bytes are a pickle of a detection sequence. *)
Class Pickle : Type := {
  blob : Type;
  pickle_dumps : list detection_set -> blob;
  pickle_loads : blob -> option (list detection_set)
}.

(** Opening a file for writing, [open(stub_path, 'wb')]: it raises on some
    paths ([FileNotFoundError] when the directory of the path is missing), and
    opens the others. *)
Class FileSystem : Type := {
  open_wb : string -> result unit
}.

Section Detector.
Context `{Yolo} `{Pickle} `{FileSystem}.

(** What a call of a method can reach: the YOLO model ([self.model]) and the
    files. [tracked] is a ghost field: the frames [track] was called on, in
    the order of the calls. *)
Record world : Type := World {
  model_state : model;
  tracked : list frame;
  files : gmap string blob
}.

Definition model_track (f : frame) : M world (list yolo_results) := fun w =>
  let '(m, results) := track (model_state w) f in
  (Ok results, World m (tracked w ++ [f]) (files w)).

(** The loop of [detect_frame], for the boxes that are left and the
    [player_dict] so far. *)
Fixpoint box_loop (id_name_dict : gmap Z string) (boxes : list yolo_box)
    (player_dict : detection_set) : result detection_set :=
  match boxes with
  | [] => Ok player_dict
  | box :: boxes' =>
      track_id ← match box_id box with
                 | Some i => Ok i
                 | None => Raise AttributeError
                 end;
      let result := box_xyxy box in
      let object_cls_id := box_cls box in
      object_cls_name ← match id_name_dict !! object_cls_id with
                        | Some n => Ok n
                        | None => Raise KeyError
                        end;
      box_loop id_name_dict boxes'
        (if String.eqb object_cls_name "person"
         then dict_setitem track_id result player_dict
         else player_dict)
  end.

Definition detect_frame (f : frame) : M world detection_set :=
  results_list ← model_track f;
  results ← lift (py_index results_list 0);
  let id_name_dict := names results in
  lift (box_loop id_name_dict (boxes results) []).

(** [with open(stub_path, 'rb') as f: player_detections = pickle.load(f)]. *)
Definition load_stub (stub_path : string) : M world (list detection_set) := fun w =>
  match files w !! stub_path with
  | None => (Raise FileNotFoundError, w)
  | Some b =>
      match pickle_loads b with
      | Some player_detections => (Ok player_detections, w)
      | None => (Raise UnpicklingError, w)
      end
  end.

(** [with open(stub_path, 'wb') as f: pickle.dump(player_detections, f)]:
    when the file opens, it is created, or its content replaced; when [open]
    raises, no file changes. *)
Definition dump_stub (stub_path : string) (player_detections : list detection_set) :
    M world unit := fun w =>
  match open_wb stub_path with
  | Ok _ =>
      (Ok tt,
       World (model_state w) (tracked w)
         (<[stub_path := pickle_dumps player_detections]> (files w)))
  | Raise e => (Raise e, w)
  end.

(** The loop over the frames of [detect_frames]. *)
Fixpoint frames_loop (frames : list frame) (player_detections : list detection_set) :
    M world (list detection_set) :=
  match frames with
  | [] => mret player_detections
  | f :: frames' =>
      player_dict ← detect_frame f;
      frames_loop frames' (player_detections ++ [player_dict])
  end.

Definition detect_frames (frames : list frame) (read_from_stub : bool)
    (stub_path : option string) : M world (list detection_set) :=
  match read_from_stub, stub_path with
  | true, Some path => load_stub path
  | _, _ =>
      player_detections ← frames_loop frames [];
      _ ← match stub_path with
          | Some path => dump_stub path player_detections
          | None => mret tt
          end;
      mret player_detections
  end.


(** The world after one more call of the tracker, on the frame [f]. *)
Definition tracked_one (f : frame) (w : world) : world :=
  World (track (model_state w) f).1 (tracked w ++ [f]) (files w).

End Detector.

Arguments world {_ _}.
Arguments World {_ _} _ _ _.

(** ** Drawing *)

(** The two OpenCV calls, on a frame buffer: each draws into the buffer it
    is given, or raises and draws nothing (OpenCV takes C ints, and raises
    [cv2.error] on a coordinate that is none). The font, scale, colour and
    thickness are the same at every call and are left out. *)
Class Cv2 : Type := {
  image : Type;
  cv2_putText : image -> string -> Z * Z -> result image;
  cv2_rectangle : image -> Z * Z -> Z * Z -> result image
}.

Section Drawing.
Context `{Cv2}.

(** [draw_bboxes] writes into the frames it is given, and a caller holds the
    same frames and dicts: both live in a heap, and a list of frames or of
    dicts is a list of references. *)
Inductive object : Type :=
| Frame (img : image)
| Dict (d : detection_set).

#[local] Abbreviation heap := (gmap nat object).

(** A drawing call on the object at [frame]: OpenCV raises [cv2.error]
    when that is no frame buffer; a call that raises leaves the buffer as it
    was. *)
Definition draw_on (frame : nat) (draw : image -> result image) : M heap unit := fun h =>
  match h !! frame with
  | Some (Frame img) =>
      match draw img with
      | Ok img' => (Ok tt, <[frame := Frame img']> h)
      | Raise e => (Raise e, h)
      end
  | _ => (Raise Cv2Error, h)
  end.

(** [player_dict.items()]. *)
Definition dict_items (player_dict : nat) : M heap (list (Z * bbox)) := fun h =>
  match h !! player_dict with
  | Some (Dict d) => (Ok d, h)
  | _ => (Raise AttributeError, h)
  end.

(** The loop over the items of one frame's dict. *)
Fixpoint items_loop (frame : nat) (items : list (Z * bbox)) : M heap unit :=
  match items with
  | [] => mret tt
  | (track_id, bbox) :: items' =>
      let '(Bbox x1 y1 x2 y2) := bbox in
      text_x ← lift (py_int x1);
      text_y ← lift (py_int (y1 - 10)%float);
      _ ← draw_on frame (fun img =>
            cv2_putText img ("Player ID: " +:+ pretty track_id) (text_x, text_y));
      left ← lift (py_int x1);
      top ← lift (py_int y1);
      right ← lift (py_int x2);
      bottom ← lift (py_int y2);
      _ ← draw_on frame (fun img => cv2_rectangle img (left, top) (right, bottom));
      items_loop frame items'
  end.

(** The loop over [zip(frames, player_detections)]. *)
Fixpoint zip_loop (pairs : list (nat * nat)) (output_frames : list nat) :
    M heap (list nat) :=
  match pairs with
  | [] => mret output_frames
  | (frame, player_dict) :: pairs' =>
      items ← dict_items player_dict;
      _ ← items_loop frame items;
      zip_loop pairs' (output_frames ++ [frame])
  end.

Definition draw_bboxes (frames player_detections : list nat) : M heap (list nat) :=
  zip_loop (zip frames player_detections) [].

(** From [h] to [h'] nothing changed but the content of frame buffers, and
    only of buffers among [frames]. *)
Definition only_drawn_on (frames : list nat) (h h' : heap) : Prop :=
  forall l,
    h' !! l = h !! l \/
    (l ∈ frames /\
     exists img img', h !! l = Some (Frame img) /\ h' !! l = Some (Frame img')).

End Drawing.

Abbreviation heap := (gmap nat object).

(** ** The helpers and the selection as the specification words them *)

(** Modelled from the spec: [Utils.bbox_utils.get_center_of_bbox] is not in
    the source at hand; the spec has "its bounding-box center (midpoint of the
    box)". *)
Definition midpoint (b : bbox) : float * float :=
  ((bbox_x1 b + bbox_x2 b) / 2, (bbox_y1 b + bbox_y2 b) / 2)%float.

(** The Euclidean distance between two points. *)
Definition point_distance (p q : float * float) : float :=
  let dx := (p.1 - q.1)%float in
  let dy := (p.2 - q.2)%float in
  PrimFloat.sqrt (dx * dx + dy * dy).

(** Modelled from the spec: [Utils.bbox_utils.measure_distance] is not in
    the source at hand; the spec has "the Euclidean distance from the player
    center to that keypoint". The second point is a Python sequence, read at
    its indices 0 and 1. *)
Definition euclidean_distance (p : float * float) (q : list float) : result float :=
  qx ← py_index q 0;
  qy ← py_index q 1;
  Ok (point_distance p (qx, qy)).

Definition spec_bbox_utils : BboxUtils :=
  {| point := float * float;
     get_center_of_bbox := midpoint;
     measure_distance := euclidean_distance |}.

(** The keypoints "taken as consecutive coordinate pairs". *)
Fixpoint keypoint_pairs (court_keypoints : list float) : list (float * float) :=
  match court_keypoints with
  | x :: y :: rest => (x, y) :: keypoint_pairs rest
  | _ => []
  end.

(** A player's score, in the spec's words: "compute the Euclidean distance
    from the player center to that keypoint; take the minimum over all
    keypoints". *)
Definition spec_score (center : float * float) (court_keypoints : list float) : float :=
  foldl
    (fun min_distance court_keypoint =>
       let distance := point_distance center court_keypoint in
       if PrimFloat.ltb distance min_distance then distance else min_distance)
    infinity (keypoint_pairs court_keypoints).

(** The selection, in the spec's words: "sort track identities ascending by
    score; take the two smallest-scoring identities", ties in the order of the
    mapping. *)
Definition spec_choose_players (court_keypoints : list float)
    (player_detections_dict : detection_set) : list Z :=
  let scores :=
    (fun item : Z * bbox => (item.1, spec_score (midpoint item.2) court_keypoints))
      <$> player_detections_dict in
  (take 2 (sort_by_distance scores)).*1.

(** ** A model, a pickle and a canvas to run the methods on *)

(** A tracker that counts its calls and reports, on every frame, a person
    with track id 1, a person with track id 2 and a ball. *)
Definition counting_yolo : Yolo :=
  {| frame := nat;
     model := nat;
     track := fun calls _ =>
       (S calls,
        [YoloResults {[ 0%Z := "person"; 32%Z := "sports ball" ]}
           [YoloBox (Some 1%Z) (Bbox 0 0 10 10) 0;
            YoloBox (Some 9%Z) (Bbox 50 50 52 52) 32;
            YoloBox (Some 2%Z) (Bbox 100 100 110 110) 0]]) |}.

(** A pickle in the manner of the pickle protocol: the bytes are a program
    for a stack machine, and loading runs the program. *)
Inductive opcode : Type :=
| EMPTY_LIST
| EMPTY_DICT
| BININT (z : Z)
| BINFLOAT (x : float)
| APPEND
| SETITEM
| STOP.

#[local] Unset Elimination Schemes.

(** What the machine builds: Python objects, not yet known to be a
    detection sequence. *)
Inductive pyobj : Type :=
| PyInt (z : Z)
| PyFloat (x : float)
| PyList (l : list pyobj)
| PyDict (d : list (Z * pyobj)).

#[local] Set Elimination Schemes.

(** The machine: [None] when the program ends without [STOP], or an
    instruction does not find on the stack what it needs. *)
Fixpoint unpickle (ops : list opcode) (stack : list pyobj) : option pyobj :=
  match ops with
  | [] => None
  | op :: ops' =>
      match op, stack with
      | EMPTY_LIST, _ => unpickle ops' (PyList [] :: stack)
      | EMPTY_DICT, _ => unpickle ops' (PyDict [] :: stack)
      | BININT z, _ => unpickle ops' (PyInt z :: stack)
      | BINFLOAT x, _ => unpickle ops' (PyFloat x :: stack)
      | APPEND, v :: PyList l :: stack' => unpickle ops' (PyList (l ++ [v]) :: stack')
      | SETITEM, v :: PyInt k :: PyDict d :: stack' =>
          unpickle ops' (PyDict (dict_setitem k v d) :: stack')
      | STOP, [v] => Some v
      | _, _ => None
      end
  end.

Definition pickle_bbox (b : bbox) : list opcode :=
  [EMPTY_LIST; BINFLOAT (bbox_x1 b); APPEND; BINFLOAT (bbox_y1 b); APPEND;
   BINFLOAT (bbox_x2 b); APPEND; BINFLOAT (bbox_y2 b); APPEND].

Definition pickle_items (items : list (Z * bbox)) : list opcode :=
  flat_map (fun item => BININT item.1 :: pickle_bbox item.2 ++ [SETITEM]) items.

Definition pickle_dicts (player_detections : list detection_set) : list opcode :=
  flat_map (fun d => EMPTY_DICT :: pickle_items d ++ [APPEND]) player_detections.

Definition pickle_detections (player_detections : list detection_set) : list opcode :=
  EMPTY_LIST :: pickle_dicts player_detections ++ [STOP].

(** A Python object read as a box, as a dict of boxes, as a list of such
    dicts: [None] when it is not one. *)
Definition as_bbox (o : pyobj) : option bbox :=
  match o with
  | PyList [PyFloat x1; PyFloat y1; PyFloat x2; PyFloat y2] => Some (Bbox x1 y1 x2 y2)
  | _ => None
  end.

Definition as_detection_set (o : pyobj) : option detection_set :=
  match o with
  | PyDict d => mapM (fun item : Z * pyobj => b ← as_bbox item.2; Some (item.1, b)) d
  | _ => None
  end.

Definition as_detections (o : pyobj) : option (list detection_set) :=
  match o with
  | PyList l => mapM as_detection_set l
  | _ => None
  end.

Definition stack_pickle : Pickle :=
  {| blob := list opcode;
     pickle_dumps := pickle_detections;
     pickle_loads := fun ops => unpickle ops [] ≫= as_detections |}.

(** The Python object of a box, of an item, of a dict. *)
Definition of_bbox (b : bbox) : pyobj :=
  PyList [PyFloat (bbox_x1 b); PyFloat (bbox_y1 b); PyFloat (bbox_x2 b); PyFloat (bbox_y2 b)].

Definition of_item (item : Z * bbox) : Z * pyobj := (item.1, of_bbox item.2).

Definition of_detection_set (d : detection_set) : pyobj := PyDict (of_item <$> d).

(** A file system with no directory [no_such_dir]: a path into it does not
    open, any other path does. *)
Definition flat_fs : FileSystem :=
  {| open_wb := fun path =>
       if String.prefix "no_such_dir/" path then Raise FileNotFoundError else Ok tt |}.

(** The world before the first frame of a clip: no file yet. *)
Definition first_run : @world counting_yolo stack_pickle :=
  @World counting_yolo stack_pickle 0 [] ∅.

(** What the counting tracker makes [detect_frame] return on any frame. *)
Definition two_players : detection_set :=
  [(1%Z, Bbox 0 0 10 10); (2%Z, Bbox 100 100 110 110)].

(** A clip of three frames: the player with track id 1 stands far from the
    court in the first frame and is lost in the second; the third frame has no
    detection. *)
Definition far_first : detection_set :=
  [(1%Z, Bbox 1000 1000 1010 1010); (2%Z, Bbox 100 100 110 110); (3%Z, Bbox 0 0 10 10)].

Definition clip_tail : list detection_set :=
  [[(3%Z, Bbox 1 1 11 11); (2%Z, Bbox 101 101 111 111)]; []].

(** A canvas that records what is drawn on it. *)
Inductive drawing : Type :=
| PutText (text : string) (org : Z * Z)
| Rectangle (pt1 pt2 : Z * Z).

(** The point is one of C ints. *)
Definition c_point (pt : Z * Z) : bool :=
  ((-2147483648 <=? pt.1) && (pt.1 <? 2147483648) &&
   (-2147483648 <=? pt.2) && (pt.2 <? 2147483648))%Z.

Definition recording_cv2 : Cv2 :=
  {| image := list drawing;
     cv2_putText := fun img text org =>
       if c_point org then Ok (img ++ [PutText text org]) else Raise Cv2Error;
     cv2_rectangle := fun img pt1 pt2 =>
       if c_point pt1 && c_point pt2 then Ok (img ++ [Rectangle pt1 pt2])
       else Raise Cv2Error |}.

(** ** What the methods are measured against *)

(** The box is a person tracked as [track_id]. *)
Definition person_box (id_name_dict : gmap Z string) (track_id : Z) (box : yolo_box) : Prop :=
  box_id box = Some track_id /\ id_name_dict !! box_cls box = Some "person".

#[global] Instance person_box_dec (id_name_dict : gmap Z string) (track_id : Z)
    (box : yolo_box) : Decision (person_box id_name_dict track_id box).
Proof. unfold person_box. apply _. Defined.

(** The corners of the last of the boxes that is a person tracked as
    [track_id]. *)
Definition last_person_box (id_name_dict : gmap Z string) (boxes : list yolo_box)
    (track_id : Z) : option bbox :=
  box_xyxy <$> last (filter (person_box id_name_dict track_id) boxes).

(** [detect_frame] can read the box: it has a track id, and its class id has
    a name. *)
Definition box_readable (id_name_dict : gmap Z string) (box : yolo_box) : Prop :=
  is_Some (box_id box) /\ is_Some (id_name_dict !! box_cls box).

Section Rendering.
Context `{Cv2}.

(** What one item of a dict draws on a buffer: the label above the corner,
    then the rectangle; or what [int] or OpenCV raises on it. *)
Definition render_item (track_id : Z) (b : bbox) (img : image) : result image :=
  text_x ← py_int (bbox_x1 b);
  text_y ← py_int (bbox_y1 b - 10)%float;
  labelled ← cv2_putText img ("Player ID: " +:+ pretty track_id) (text_x, text_y);
  left ← py_int (bbox_x1 b);
  top ← py_int (bbox_y1 b);
  right ← py_int (bbox_x2 b);
  bottom ← py_int (bbox_y2 b);
  cv2_rectangle labelled (left, top) (right, bottom).

(** What the items of a dict draw on a buffer, in the order of the dict. *)
Fixpoint render_items (items : list (Z * bbox)) (img : image) : result image :=
  match items with
  | [] => Ok img
  | (track_id, b) :: items' =>
      img' ← render_item track_id b img;
      render_items items' img'
  end.

End Rendering.

(** A tracker that loses the ball on frame 8: there the box of the ball has
    no track id. On the other frames it answers as the counting tracker. *)
Definition flaky_yolo : Yolo :=
  {| frame := nat;
     model := nat;
     track := fun calls f =>
       (S calls,
        [YoloResults {[ 0%Z := "person"; 32%Z := "sports ball" ]}
           [YoloBox (Some 1%Z) (Bbox 0 0 10 10) 0;
            YoloBox (if decide (f = 8) then None else Some 9%Z) (Bbox 50 50 52 52) 32;
            YoloBox (Some 2%Z) (Bbox 100 100 110 110) 0]]) |}.

(** The heap of a clip of two frames, the second with no detection: the
    buffers at 0 and 1, their dicts at 2 and 3. *)
Definition two_frames : gmap nat (@object recording_cv2) :=
  {[ 0 := @Frame recording_cv2 []; 1 := @Frame recording_cv2 [];
     2 := @Dict recording_cv2 two_players; 3 := @Dict recording_cv2 [] ]}.

(** What is drawn on [two_frames]: a label and a rectangle for each of the
    two players, on the first buffer. *)
Definition two_frames_drawn : gmap nat (@object recording_cv2) :=
  {[ 0 := @Frame recording_cv2
            [PutText "Player ID: 1" (0, -10)%Z; Rectangle (0, 0)%Z (10, 10)%Z;
             PutText "Player ID: 2" (100, 90)%Z; Rectangle (100, 100)%Z (110, 110)%Z];
     1 := @Frame recording_cv2 [];
     2 := @Dict recording_cv2 two_players; 3 := @Dict recording_cv2 [] ]}.

(** The clip [far_first :: clip_tail] with the first two track ids of its
    first frame kept. *)
Definition filtered_clip : list detection_set :=
  [[(1%Z, Bbox 1000 1000 1010 1010); (2%Z, Bbox 100 100 110 110)];
   [(2%Z, Bbox 101 101 111 111)];
   []].

(** The world before the first frame, with the flaky tracker. *)
Definition flaky_run : @world flaky_yolo stack_pickle :=
  @World flaky_yolo stack_pickle 0 [] ∅.

(** * Properties *)

(** ** The two monads *)

Lemma M_bind_unfold {S A B : Type} (c : M S A) (k : A -> M S B) (s : S) :
  (c ≫= k) s =
  match c s with
  | (Ok a, s') => k a s'
  | (Raise e, s') => (Raise e, s')
  end.
Proof. reflexivity. Qed.

Lemma py_range_empty (start stop : nat) : stop <= start -> py_range start stop = [].
Proof.
  intros Hle. unfold py_range.
  replace (stop - start) with 0 by lia. reflexivity.
Qed.

(** [int] truncates toward zero. *)
Example py_int_truncates :
  py_int 2.5 = Ok 2%Z /\ py_int (-2.5) = Ok (-2)%Z /\ py_int 110 = Ok 110%Z /\
  py_int (-0) = Ok 0%Z /\ py_int infinity = Raise OverflowError /\
  py_int nan = Raise ValueError.
Proof. repeat split; reflexivity. Qed.

(** [range(4, 2)] is empty; [range(0, 2)] and [range(1, 2)] are not. *)
Example py_range_of_lengths :
  py_range 4 2 = [] /\ py_range 0 2 = [0; 1] /\ py_range 1 2 = [1].
Proof. repeat split; reflexivity. Qed.

(** ** Dicts *)

Lemma dict_setitem_fresh {V : Type} (k : Z) (v : V) (d : list (Z * V)) :
  k ∉ d.*1 -> dict_setitem k v d = d ++ [(k, v)].
Proof.
  induction d as [|[k' v'] d IH]; intros Hfresh; simpl; [reflexivity|].
  rewrite fmap_cons, not_elem_of_cons in Hfresh. destruct Hfresh as [Hne Hfresh].
  simpl in Hne. destruct (decide (k' = k)) as [->|_]; [done|].
  by rewrite IH.
Qed.

Lemma dict_setitem_keys {V : Type} (k : Z) (v : V) (d : list (Z * V)) :
  k ∈ d.*1 -> (dict_setitem k v d).*1 = d.*1.
Proof.
  induction d as [|[k' v'] d IH]; intros Hin; simpl.
  - by apply elem_of_nil in Hin.
  - destruct (decide (k' = k)) as [->|Hne]; [reflexivity|].
    rewrite fmap_cons in Hin. apply elem_of_cons in Hin as [Heq|Hin]; [by subst|].
    rewrite !fmap_cons. by rewrite IH.
Qed.

(** Assigning to a key keeps the keys of a dict distinct. *)
Lemma dict_setitem_wf {V : Type} (k : Z) (v : V) (d : list (Z * V)) :
  dict_wf d -> dict_wf (dict_setitem k v d).
Proof.
  unfold dict_wf. intros Hwf. destruct (decide (k ∈ d.*1)) as [Hin|Hfresh].
  - by rewrite dict_setitem_keys.
  - rewrite (dict_setitem_fresh _ _ _ Hfresh), fmap_app. simpl.
    apply NoDup_app. split_and!; [done| |apply NoDup_singleton].
    intros k' Hk' Hk. apply list_elem_of_singleton in Hk. by subst.
Qed.

(** ** The stack-machine pickle *)

Lemma unpickle_bbox (b : bbox) (ops : list opcode) (stack : list pyobj) :
  unpickle (pickle_bbox b ++ ops) stack = unpickle ops (of_bbox b :: stack).
Proof. reflexivity. Qed.

Lemma pickle_items_cons (k : Z) (b : bbox) (items : list (Z * bbox)) (ops : list opcode) :
  pickle_items ((k, b) :: items) ++ ops =
  BININT k :: pickle_bbox b ++ SETITEM :: pickle_items items ++ ops.
Proof. reflexivity. Qed.

Lemma pickle_dicts_cons (d : detection_set) (ds : list detection_set) (ops : list opcode) :
  pickle_dicts (d :: ds) ++ ops =
  EMPTY_DICT :: pickle_items d ++ APPEND :: pickle_dicts ds ++ ops.
Proof.
  unfold pickle_dicts. simpl. by rewrite <- !app_assoc.
Qed.

(** The program of the items of a dict rebuilds the items, one [SETITEM]
    each, when no key comes twice. *)
Lemma unpickle_items (items : list (Z * bbox)) (d : list (Z * pyobj))
    (ops : list opcode) (stack : list pyobj) :
  NoDup (d.*1 ++ items.*1) ->
  unpickle (pickle_items items ++ ops) (PyDict d :: stack) =
  unpickle ops (PyDict (d ++ (of_item <$> items)) :: stack).
Proof.
  revert d. induction items as [|[k b] items IH]; intros d Hwf.
  - simpl. by rewrite app_nil_r.
  - rewrite pickle_items_cons. cbn [unpickle].
    rewrite unpickle_bbox. cbn [unpickle].
    rewrite fmap_cons in Hwf. simpl in Hwf.
    rewrite dict_setitem_fresh.
    + rewrite IH.
      * rewrite <- app_assoc. reflexivity.
      * rewrite fmap_app, <- app_assoc. exact Hwf.
    + apply NoDup_app in Hwf as (_ & Hdisj & _). intros Hin.
      apply (Hdisj _ Hin). left.
Qed.

Lemma unpickle_dicts (player_detections : list detection_set) (l : list pyobj)
    (ops : list opcode) (stack : list pyobj) :
  Forall dict_wf player_detections ->
  unpickle (pickle_dicts player_detections ++ ops) (PyList l :: stack) =
  unpickle ops (PyList (l ++ (of_detection_set <$> player_detections)) :: stack).
Proof.
  intros Hwf. revert l. induction Hwf as [|d ds Hd _ IH]; intros l.
  - simpl. by rewrite app_nil_r.
  - rewrite pickle_dicts_cons. cbn [unpickle].
    rewrite unpickle_items by exact Hd.
    cbn [unpickle app]. rewrite IH, <- app_assoc. reflexivity.
Qed.

Lemma as_detection_set_of (d : detection_set) :
  as_detection_set (of_detection_set d) = Some d.
Proof.
  unfold as_detection_set, of_detection_set. apply mapM_fmap_Some.
  by intros [k [x1 y1 x2 y2]].
Qed.

(** Loading what was dumped gives it back, for dicts. *)
Lemma stack_pickle_round_trip (player_detections : list detection_set) :
  Forall dict_wf player_detections ->
  @pickle_loads stack_pickle (@pickle_dumps stack_pickle player_detections)
  = Some player_detections.
Proof.
  intros Hwf. simpl. unfold pickle_detections. cbn [unpickle].
  rewrite (unpickle_dicts _ _ _ _ Hwf). simpl.
  apply mapM_fmap_Some, as_detection_set_of.
Qed.

(** That the keys do not repeat is needed: of two items with one key, the
    machine keeps the second box at the place of the first. *)
Example stack_pickle_same_key :
  @pickle_loads stack_pickle
    (@pickle_dumps stack_pickle [[(1%Z, Bbox 0 0 10 10); (1%Z, Bbox 5 5 15 15)]])
  = Some [[(1%Z, Bbox 5 5 15 15)]].
Proof. reflexivity. Qed.

(** ** Player selection *)

Section SelectorFacts.
Context `{BboxUtils}.

(** With fewer than two scalars the first index of the range is read out of
    range: index 0 of an empty sequence, or index 1 of a sequence of one. *)
Lemma keypoint_loop_short (player_center : point) (court_keypoints : list float)
    (min_distance : float) :
  length court_keypoints < 2 ->
  keypoint_loop player_center court_keypoints
    (py_range (length court_keypoints) 2) min_distance = Raise IndexError.
Proof.
  intros Hlen.
  destruct court_keypoints as [|x [|y rest]]; simpl in Hlen; try lia; reflexivity.
Qed.

(** With two scalars or more the range is empty, and no distance is measured. *)
Lemma player_loop_long (court_keypoints : list float) (items : list (Z * bbox))
    (distances : list (Z * float)) :
  2 <= length court_keypoints ->
  player_loop court_keypoints items distances = Ok (distances ++ unscored items).
Proof.
  intros Hlen. revert distances.
  induction items as [|[track_id box] items IH]; intros distances; simpl.
  - by rewrite app_nil_r.
  - rewrite (py_range_empty _ _ Hlen). simpl.
    rewrite IH, <- app_assoc. reflexivity.
Qed.

Lemma player_loop_short (court_keypoints : list float) (items : list (Z * bbox))
    (distances : list (Z * float)) :
  length court_keypoints < 2 -> items <> [] ->
  player_loop court_keypoints items distances = Raise IndexError.
Proof.
  intros Hlen Hne. destruct items as [|[track_id box] items]; [done|].
  simpl. by rewrite keypoint_loop_short.
Qed.

(** [inf < inf] is false, so the sort moves nothing. *)
Lemma sort_unscored (items : list (Z * bbox)) :
  sort_by_distance (unscored items) = unscored items.
Proof.
  induction items as [|item items IH]; [reflexivity|].
  unfold sort_by_distance in *. simpl. rewrite IH.
  destruct items as [|item' items]; reflexivity.
Qed.

Lemma unscored_keys (items : list (Z * bbox)) (n : nat) :
  (take n (unscored items)).*1 = (take n items).*1.
Proof.
  unfold unscored. rewrite <- fmap_take, <- list_fmap_compose.
  apply list_fmap_ext. by intros ? [].
Qed.

(** What [choose_players] returns on two scalars or more: the first two
    track ids of the dict, in the order of the dict. *)
Lemma choose_players_long (court_keypoints : list float) (d : detection_set) :
  2 <= length court_keypoints ->
  choose_players court_keypoints d = Ok (take 2 d).*1.
Proof.
  intros Hlen. unfold choose_players.
  rewrite (player_loop_long _ _ _ Hlen). simpl.
  by rewrite sort_unscored, unscored_keys.
Qed.

Lemma choose_players_nil (court_keypoints : list float) :
  choose_players court_keypoints [] = Ok [].
Proof. reflexivity. Qed.

Lemma choose_players_short (court_keypoints : list float) (d : detection_set) :
  length court_keypoints < 2 -> d <> [] ->
  choose_players court_keypoints d = Raise IndexError.
Proof.
  intros Hlen Hne. unfold choose_players.
  by rewrite (player_loop_short _ _ _ Hlen Hne).
Qed.

(** The dict comprehension keeps the chosen items, in their order, when the
    keys of the dict it reads do not repeat. *)
Lemma filter_loop_kept (chosen_players : list Z) (items : list (Z * bbox))
    (filtered : detection_set) :
  NoDup (filtered.*1 ++ items.*1) ->
  filter_loop chosen_players items filtered = filtered ++ kept chosen_players items.
Proof.
  revert filtered.
  induction items as [|[track_id box] items IH]; intros filtered Hwf; simpl.
  - by rewrite app_nil_r.
  - rewrite fmap_cons in Hwf. simpl in Hwf.
    assert (Hfresh : track_id ∉ filtered.*1).
    { apply NoDup_app in Hwf as (_ & Hdisj & _). intros Hin.
      apply (Hdisj _ Hin). left. }
    assert (Hwf' : NoDup ((filtered ++ [(track_id, box)]).*1 ++ items.*1)).
    { rewrite fmap_app, <- app_assoc. exact Hwf. }
    unfold kept.
    case_bool_decide as Hchosen.
    + rewrite filter_cons_True by done.
      rewrite (dict_setitem_fresh _ _ _ Hfresh), (IH _ Hwf'), <- app_assoc.
      reflexivity.
    + rewrite filter_cons_False by done. apply IH.
      apply NoDup_app in Hwf as (Hf & Hdisj & Hitems).
      apply NoDup_cons in Hitems as [_ Hitems].
      apply NoDup_app. split_and!; [done| |done].
      intros k Hk Hk'. apply (Hdisj k Hk). by right.
Qed.

Lemma frames_filter_loop_fmap (chosen_players : list Z)
    (player_detections filtered : list detection_set) :
  frames_filter_loop chosen_players player_detections filtered =
  filtered ++ ((fun d => filter_loop chosen_players d []) <$> player_detections).
Proof.
  revert filtered.
  induction player_detections as [|d ds IH]; intros filtered; simpl.
  - by rewrite app_nil_r.
  - by rewrite IH, <- app_assoc.
Qed.

Lemma frames_filter_loop_kept (chosen_players : list Z)
    (player_detections : list detection_set) :
  Forall dict_wf player_detections ->
  frames_filter_loop chosen_players player_detections [] =
  kept chosen_players <$> player_detections.
Proof.
  intros Hwf. rewrite frames_filter_loop_fmap. simpl.
  apply Forall_fmap_ext_1. eapply Forall_impl; [exact Hwf|].
  intros d Hd. by rewrite filter_loop_kept.
Qed.

Lemma elem_of_kept (chosen_players : list Z) (d : detection_set) (item : Z * bbox) :
  item ∈ kept chosen_players d <-> item ∈ d /\ item.1 ∈ chosen_players.
Proof. unfold kept. rewrite list_elem_of_filter. tauto. Qed.

(** What [choose_and_filter_players] does with the answer of
    [choose_players] on the first frame. *)
Lemma choose_and_filter_players_cons (court_keypoints : list float)
    (first : detection_set) (rest : list detection_set) :
  Forall dict_wf (first :: rest) ->
  choose_and_filter_players court_keypoints (first :: rest) =
  match choose_players court_keypoints first with
  | Ok chosen_players => Ok (kept chosen_players <$> first :: rest)
  | Raise e => Raise e
  end.
Proof.
  intros Hwf. unfold choose_and_filter_players.
  change (py_index (first :: rest) 0) with (Ok first).
  cbn [mbind result_bind].
  destruct (choose_players court_keypoints first) as [chosen_players|e];
    cbn [mbind result_bind]; [|reflexivity].
  by rewrite (frames_filter_loop_kept _ _ Hwf).
Qed.

(** C6. On the detection set [{1: [0,0,10,10], 2: [100,100,110,110]}],
    inserted in that order, and the keypoints [[0,0, 200,200]],
    [choose_players] returns [[1, 2]], whatever the two helpers compute. *)
Theorem choose_players_scenario :
  choose_players [0; 0; 200; 200]%float
    [(1%Z, Bbox 0 0 10 10); (2%Z, Bbox 100 100 110 110)] = Ok [1%Z; 2%Z].
Proof. by rewrite choose_players_long by (simpl; lia). Qed.

(** C7, as amended. [choose_players] does not validate the keypoints: on a
    keypoint sequence of a single scalar and a detection set that is not
    empty, it fails with the [IndexError] of the read of the missing second
    coordinate, an index out of range. *)
Theorem choose_players_lone_keypoint (court_keypoints : list float) (d : detection_set) :
  length court_keypoints = 1 -> d <> [] ->
  choose_players court_keypoints d = Raise IndexError.
Proof. intros Hlen Hne. apply choose_players_short; [lia | done]. Qed.

(** C8. On a detection set of fewer than two entries [choose_players]
    returns the track ids of the set, as many as the set has entries (zero or
    one), and raises nothing: on every keypoint sequence that holds a
    keypoint, two scalars or more, and so on every well-formed one; on the
    empty detection set it returns the empty selection, whatever the
    keypoints. *)
Theorem choose_players_few_detections (court_keypoints : list float) (d : detection_set) :
  length d < 2 ->
  d = [] \/ 2 <= length court_keypoints ->
  choose_players court_keypoints d = Ok d.*1 /\ length d.*1 = length d.
Proof.
  intros Hfew Hkeypoints. split; [|by rewrite length_fmap].
  destruct Hkeypoints as [->|Hlen]; [reflexivity|].
  rewrite (choose_players_long _ _ Hlen).
  by rewrite take_ge by lia.
Qed.

(** C5, as amended. On a detection sequence that is not empty, and a
    keypoint sequence of two scalars or more (or any keypoint sequence, when
    the first frame has no detection), [choose_and_filter_players] chooses
    from the first frame alone and returns one dict per frame: the items of
    that frame whose track id was chosen, and no other. A frame that lacks a
    chosen id raises nothing. *)
Theorem choose_and_filter_players_filters (court_keypoints : list float)
    (first : detection_set) (rest : list detection_set) :
  Forall dict_wf (first :: rest) ->
  first = [] \/ 2 <= length court_keypoints ->
  exists chosen_players filtered,
    choose_players court_keypoints first = Ok chosen_players /\
    choose_and_filter_players court_keypoints (first :: rest) = Ok filtered /\
    length filtered = length (first :: rest) /\
    Forall2
      (fun player_dict filtered_player_dict =>
         forall item, item ∈ filtered_player_dict <->
                      item ∈ player_dict /\ item.1 ∈ chosen_players)
      (first :: rest) filtered.
Proof.
  intros Hwf Hkeypoints.
  assert (Hchosen : exists chosen_players,
             choose_players court_keypoints first = Ok chosen_players).
  { destruct Hkeypoints as [->|Hlen]; [by eexists|].
    eexists. by apply choose_players_long. }
  destruct Hchosen as [chosen_players Hchosen].
  exists chosen_players, (kept chosen_players <$> first :: rest).
  rewrite (choose_and_filter_players_cons _ _ _ Hwf), Hchosen.
  split_and!; [done|done|by rewrite length_fmap|].
  apply Forall2_fmap_r, Forall2_same_length_lookup. split; [done|].
  intros i d d' Hd Hd' item. rewrite Hd in Hd'. inversion Hd'; subst d'.
  apply elem_of_kept.
Qed.

(** C10. On the empty detection sequence [choose_and_filter_players] raises
    the [IndexError] of [player_detections[0]]; it does not return an empty
    sequence. *)
Theorem choose_and_filter_players_empty_sequence (court_keypoints : list float) :
  choose_and_filter_players court_keypoints [] = Raise IndexError.
Proof. reflexivity. Qed.

End SelectorFacts.

(** ** Player selection, run on the helpers of the specification *)

(** C1. The code does not return the two closest players. On the keypoints
    [[0,0, 200,200]] and the detection set
    [{1: [1000,1000,1010,1010], 2: [100,100,110,110], 3: [0,0,10,10]}],
    [choose_players] returns [[1, 2]], the first two keys of the dict; the
    two players closest to a keypoint, closest first, are [[3, 2]]. *)
Theorem choose_players_returns_first_two_keys :
  @choose_players spec_bbox_utils [0; 0; 200; 200]%float
    [(1%Z, Bbox 1000 1000 1010 1010); (2%Z, Bbox 100 100 110 110); (3%Z, Bbox 0 0 10 10)]
  = Ok [1%Z; 2%Z] /\
  spec_choose_players [0; 0; 200; 200]%float
    [(1%Z, Bbox 1000 1000 1010 1010); (2%Z, Bbox 100 100 110 110); (3%Z, Bbox 0 0 10 10)]
  = [3%Z; 2%Z].
Proof. split; vm_compute; reflexivity. Qed.

(** The claim C7 fails: a keypoint sequence of odd length 3 is accepted, and
    a keypoint sequence of one scalar is read at index 1, out of range. *)
Lemma choose_players_no_keypoint_validation :
  @choose_players spec_bbox_utils [0; 0; 5]%float [(1%Z, Bbox 0 0 10 10)] = Ok [1%Z] /\
  @choose_players spec_bbox_utils [5]%float [(1%Z, Bbox 0 0 10 10)] = Raise IndexError /\
  py_index [5]%float 1 = Raise IndexError.
Proof. split_and!; vm_compute; reflexivity. Qed.

(** The theorem of C7 on the keypoints [[5]] and one detection. *)
Lemma choose_players_lone_keypoint_witness :
  length [5%float] = 1 /\
  [(1%Z, Bbox 0 0 10 10)] <> [] /\
  @choose_players spec_bbox_utils [5%float] [(1%Z, Bbox 0 0 10 10)] = Raise IndexError.
Proof.
  split; [reflexivity|]. split; [discriminate|].
  apply (@choose_players_lone_keypoint spec_bbox_utils); [reflexivity | discriminate].
Defined.

(** The theorem of C8 on four keypoint scalars and one detection. *)
Lemma choose_players_few_detections_witness :
  length [(7%Z, Bbox 0 0 10 10)] < 2 /\
  ([(7%Z, Bbox 0 0 10 10)] = [] \/ 2 <= length [0; 0; 200; 200]%float) /\
  @choose_players spec_bbox_utils [0; 0; 200; 200]%float [(7%Z, Bbox 0 0 10 10)] = Ok [7%Z] /\
  length [7%Z] = length [(7%Z, Bbox 0 0 10 10)].
Proof.
  split; [simpl; lia|]. split; [right; simpl; lia|].
  apply (@choose_players_few_detections spec_bbox_utils
           [0; 0; 200; 200]%float [(7%Z, Bbox 0 0 10 10)]);
    [simpl; lia | right; simpl; lia].
Defined.

(** The claim C5 fails: on a detection sequence of one frame with one
    detection and a keypoint sequence of one scalar,
    [choose_and_filter_players] raises and returns no sequence. *)
Lemma choose_and_filter_players_lone_keypoint :
  [[(1%Z, Bbox 0 0 10 10)]] <> [] /\
  @choose_and_filter_players spec_bbox_utils [5%float] [[(1%Z, Bbox 0 0 10 10)]]
  = Raise IndexError.
Proof. split; [discriminate | reflexivity]. Qed.

(** The theorem of C5 on a clip of three frames. *)
Lemma choose_and_filter_players_filters_witness :
  Forall dict_wf (far_first :: clip_tail) /\
  (far_first = [] \/ 2 <= length [0; 0; 200; 200]%float) /\
  exists chosen_players filtered,
    @choose_players spec_bbox_utils [0; 0; 200; 200]%float far_first = Ok chosen_players /\
    @choose_and_filter_players spec_bbox_utils [0; 0; 200; 200]%float
      (far_first :: clip_tail) = Ok filtered /\
    length filtered = length (far_first :: clip_tail) /\
    Forall2
      (fun player_dict filtered_player_dict =>
         forall item, item ∈ filtered_player_dict <->
                      item ∈ player_dict /\ item.1 ∈ chosen_players)
      (far_first :: clip_tail) filtered.
Proof.
  assert (Hwf : Forall dict_wf (far_first :: clip_tail)).
  { repeat constructor; unfold dict_wf; simpl; apply (bool_decide_unpack _); reflexivity. }
  split; [exact Hwf|]. split; [right; simpl; lia|].
  apply (@choose_and_filter_players_filters spec_bbox_utils); [exact Hwf | right; simpl; lia].
Defined.

(** What the clip is filtered to: the first two keys of the first frame are
    chosen, 1 and 2, and track id 3, the closest to the court, is dropped
    from every frame. *)
Example choose_and_filter_players_clip :
  @choose_and_filter_players spec_bbox_utils [0; 0; 200; 200]%float (far_first :: clip_tail)
  = Ok [[(1%Z, Bbox 1000 1000 1010 1010); (2%Z, Bbox 100 100 110 110)];
        [(2%Z, Bbox 101 101 111 111)];
        []].
Proof. reflexivity. Qed.

(** ** Detection *)

Section DetectorFacts.
Context `{Yolo} `{Pickle} `{FileSystem}.


(** The dict of a frame has distinct keys. *)
Lemma box_loop_wf (id_name_dict : gmap Z string) (boxes : list yolo_box)
    (player_dict d : detection_set) :
  dict_wf player_dict ->
  box_loop id_name_dict boxes player_dict = Ok d -> dict_wf d.
Proof.
  revert player_dict.
  induction boxes as [|box boxes IH]; intros player_dict Hwf; simpl.
  - intros [= <-]. exact Hwf.
  - destruct (box_id box) as [i|]; [|discriminate]. simpl.
    destruct (id_name_dict !! box_cls box) as [n|]; [|discriminate]. simpl.
    apply IH. destruct (String.eqb n "person"); [by apply dict_setitem_wf | exact Hwf].
Qed.

(** Whatever it returns or raises, [detect_frame] calls the tracker once. *)
Lemma detect_frame_world (f : frame) (w : world) :
  (detect_frame f w).2 = tracked_one f w.
Proof.
  unfold detect_frame, tracked_one. rewrite M_bind_unfold.
  unfold model_track. destruct (track (model_state w) f) as [m results_list].
  rewrite M_bind_unfold. unfold lift.
  destruct (py_index results_list 0); reflexivity.
Qed.


(** The list the loop starts from stays in front of what the loop adds. *)
Lemma frames_loop_acc (frames : list frame) (player_detections : list detection_set)
    (w : world) :
  frames_loop frames player_detections w =
  match frames_loop frames [] w with
  | (Ok ds, w') => (Ok (player_detections ++ ds), w')
  | (Raise e, w') => (Raise e, w')
  end.
Proof.
  revert player_detections w.
  induction frames as [|f frames IH]; intros player_detections w; simpl.
  - unfold mret, M_ret. by rewrite app_nil_r.
  - rewrite !M_bind_unfold. destruct (detect_frame f w) as [[d|e] w1]; [|reflexivity].
    rewrite (IH (player_detections ++ [d])), (IH ([] ++ [d])).
    destruct (frames_loop frames [] w1) as [[ds|e] w2]; [|reflexivity].
    by rewrite <- app_assoc.
Qed.

Lemma frames_loop_cons (f : frame) (frames : list frame) (w : world) :
  frames_loop (f :: frames) [] w =
  match detect_frame f w with
  | (Ok d, w1) =>
      match frames_loop frames [] w1 with
      | (Ok ds, w2) => (Ok (d :: ds), w2)
      | (Raise e, w2) => (Raise e, w2)
      end
  | (Raise e, w1) => (Raise e, w1)
  end.
Proof.
  simpl. rewrite M_bind_unfold.
  destruct (detect_frame f w) as [[d|e] w1]; [|reflexivity].
  by rewrite frames_loop_acc.
Qed.

Lemma detect_frames_uncached (frames : list frame) (w : world) :
  detect_frames frames false None w = frames_loop frames [] w.
Proof.
  unfold detect_frames. rewrite M_bind_unfold.
  by destruct (frames_loop frames [] w) as [[ds|e] w'].
Qed.

(** The loop never touches the files. *)
Lemma frames_loop_files (frames : list frame) (player_detections : list detection_set)
    (w : world) :
  files (frames_loop frames player_detections w).2 = files w.
Proof.
  revert player_detections w.
  induction frames as [|f frames IH]; intros player_detections w; simpl; [reflexivity|].
  rewrite M_bind_unfold. pose proof (detect_frame_world f w) as Hworld.
  destruct (detect_frame f w) as [[d|e] w1]; simpl in Hworld; subst w1; [|reflexivity].
  by rewrite IH.
Qed.

(** Every dict [detect_frames] computes is a dict: its keys do not repeat. *)
Lemma detect_frame_wf (f : frame) (w w' : world) (d : detection_set) :
  detect_frame f w = (Ok d, w') -> dict_wf d.
Proof.
  unfold detect_frame. rewrite M_bind_unfold.
  unfold model_track. destruct (track (model_state w) f) as [m results_list].
  rewrite M_bind_unfold. unfold lift.
  destruct (py_index results_list 0) as [results|e]; [|discriminate].
  destruct (box_loop (names results) (boxes results) []) as [d'|e] eqn:Hloop;
    [|discriminate].
  intros [= <- _]. eapply box_loop_wf; [|exact Hloop]. apply NoDup_nil_2.
Qed.

Lemma frames_loop_wf (frames : list frame) (player_detections ds : list detection_set)
    (w w' : world) :
  frames_loop frames player_detections w = (Ok ds, w') ->
  Forall dict_wf player_detections -> Forall dict_wf ds.
Proof.
  revert player_detections w.
  induction frames as [|f frames IH]; intros player_detections w; simpl.
  - by intros [= <- _].
  - rewrite M_bind_unfold. destruct (detect_frame f w) as [[d|e] w1] eqn:Hframe;
      [|discriminate].
    intros Hloop Hwf. apply (IH _ _ Hloop).
    apply Forall_app. split; [exact Hwf|].
    apply Forall_singleton. by eapply detect_frame_wf.
Qed.




(** C3. With [read_from_stub] true and a [stub_path], [detect_frames]
    returns what the file holds, and calls the tracker on no frame: the world
    it leaves is the world it found. It raises [FileNotFoundError] when there
    is no file at the path and [UnpicklingError] when the content of the file
    is no pickle of a detection sequence, and calls the tracker on no frame
    then either. *)
Theorem detect_frames_read_from_stub (frames : list frame) (stub_path : string)
    (w : world) :
  detect_frames frames true (Some stub_path) w =
    (match files w !! stub_path with
     | None => Raise FileNotFoundError
     | Some b =>
         match pickle_loads b with
         | Some player_detections => Ok player_detections
         | None => Raise UnpicklingError
         end
     end, w) /\
  tracked (detect_frames frames true (Some stub_path) w).2 = tracked w.
Proof.
  unfold detect_frames, load_stub.
  destruct (files w !! stub_path) as [b|]; [|done].
  by destruct (pickle_loads b).
Qed.

(** C2. When [pickle.load] gives back the dicts [pickle.dump] was given, a
    detection sequence that [detect_frames] computed and wrote at
    [stub_path] is the one a later call with [read_from_stub] true and the
    same path returns, whatever frames that call is given; the later call
    computes nothing and leaves the world as it found it. *)
Theorem detect_frames_stub_round_trip (frames frames' : list frame) (stub_path : string)
    (w w' : world) (player_detections : list detection_set) :
  (forall ds, Forall dict_wf ds -> pickle_loads (pickle_dumps ds) = Some ds) ->
  detect_frames frames false (Some stub_path) w = (Ok player_detections, w') ->
  detect_frames frames' true (Some stub_path) w' = (Ok player_detections, w').
Proof.
  intros Hpickle Hwrite.
  unfold detect_frames in Hwrite. rewrite M_bind_unfold in Hwrite.
  destruct (frames_loop frames [] w) as [[ds|e] w1] eqn:Hloop; [|discriminate].
  rewrite M_bind_unfold in Hwrite. unfold dump_stub, mret, M_ret in Hwrite.
  destruct (open_wb stub_path) as [[]|e]; [|discriminate].
  injection Hwrite as -> <-.
  unfold detect_frames, load_stub. simpl.
  rewrite lookup_insert_eq, Hpickle; [reflexivity|].
  by apply (frames_loop_wf _ _ _ _ _ Hloop).
Qed.


End DetectorFacts.



(** The theorem of C2 on two frames, the counting tracker and the
    stack-machine pickle. *)
Lemma detect_frames_stub_round_trip_witness :
  (forall ds, Forall dict_wf ds ->
     @pickle_loads stack_pickle (@pickle_dumps stack_pickle ds) = Some ds) /\
  @detect_frames counting_yolo stack_pickle flat_fs [7; 8] false (Some "stub.pkl") first_run
  = (Ok [two_players; two_players],
     @World counting_yolo stack_pickle 2 [7; 8] {[ "stub.pkl" := pickle_detections [two_players; two_players] ]}) /\
  @detect_frames counting_yolo stack_pickle flat_fs [9] true (Some "stub.pkl")
    (@World counting_yolo stack_pickle 2 [7; 8] {[ "stub.pkl" := pickle_detections [two_players; two_players] ]})
  = (Ok [two_players; two_players],
     @World counting_yolo stack_pickle 2 [7; 8] {[ "stub.pkl" := pickle_detections [two_players; two_players] ]}).
Proof.
  split; [exact stack_pickle_round_trip|]. split; [reflexivity|].
  apply (@detect_frames_stub_round_trip counting_yolo stack_pickle flat_fs
           [7; 8] [9] "stub.pkl" first_run);
    [exact stack_pickle_round_trip | reflexivity].
Defined.



(** A tracker that lost track: its one box has no track id, and
    [detect_frame] raises the [AttributeError] of [box.id.tolist()], whatever
    the class of the box; [detect_frames] raises with it. *)
Example detect_frames_box_without_id :
  let lost : Yolo :=
    {| frame := nat; model := unit;
       track := fun m _ =>
         (m, [YoloResults {[ 32%Z := "sports ball" ]} [YoloBox None (Bbox 50 50 52 52) 32]]) |} in
  (@detect_frames lost stack_pickle flat_fs [7; 8] false None (@World lost stack_pickle tt [] ∅)).1
  = Raise AttributeError.
Proof. reflexivity. Qed.

(** The three ways of a read, on the stack-machine pickle: a stub that is
    there, no stub, and a stub cut short. The tracker is not called. *)
Example detect_frames_reads_stub :
  @detect_frames counting_yolo stack_pickle flat_fs [7; 8; 9] true (Some "stub.pkl")
    (@World counting_yolo stack_pickle 0 [] {[ "stub.pkl" := pickle_detections [two_players] ]})
  = (Ok [two_players], @World counting_yolo stack_pickle 0 [] {[ "stub.pkl" := pickle_detections [two_players] ]}).
Proof. reflexivity. Qed.

Example detect_frames_no_stub :
  @detect_frames counting_yolo stack_pickle flat_fs [7; 8; 9] true (Some "stub.pkl") first_run
  = (Raise FileNotFoundError, first_run).
Proof. reflexivity. Qed.

Example detect_frames_cut_stub :
  @detect_frames counting_yolo stack_pickle flat_fs [7; 8; 9] true (Some "stub.pkl")
    (@World counting_yolo stack_pickle 0 [] {[ "stub.pkl" := [EMPTY_LIST; EMPTY_DICT; BININT 1] ]})
  = (Raise UnpicklingError,
     @World counting_yolo stack_pickle 0 [] {[ "stub.pkl" := [EMPTY_LIST; EMPTY_DICT; BININT 1] ]}).
Proof. reflexivity. Qed.

(** ** Drawing *)

Section DrawingFacts.
Context `{Cv2}.

Lemma only_drawn_on_refl (frames : list nat) (h : heap) : only_drawn_on frames h h.
Proof. intros l. by left. Qed.

Lemma only_drawn_on_trans (frames : list nat) (h1 h2 h3 : heap) :
  only_drawn_on frames h1 h2 -> only_drawn_on frames h2 h3 -> only_drawn_on frames h1 h3.
Proof.
  intros H12 H23 l.
  destruct (H12 l) as [E12|(Hin & img1 & img2 & E1 & E2)],
           (H23 l) as [E23|(Hin' & img2' & img3 & E2' & E3)].
  - left. congruence.
  - right. split; [done|]. exists img2', img3. split; congruence.
  - right. split; [done|]. exists img1, img2. split; congruence.
  - right. split; [done|]. exists img1, img3. split; congruence.
Qed.

Lemma only_drawn_on_mono (frames frames' : list nat) (h h' : heap) :
  frames ⊆ frames' -> only_drawn_on frames h h' -> only_drawn_on frames' h h'.
Proof.
  intros Hsub Hd l. destruct (Hd l) as [E|(Hin & Himg)]; [by left|].
  right. split; [by apply Hsub | done].
Qed.

(** A drawing call changes the buffer it draws on and nothing else; on what
    is no frame buffer it raises and changes nothing. *)
Lemma draw_on_only (frame : nat) (draw : image -> result image) (h : heap) :
  only_drawn_on [frame] h (draw_on frame draw h).2.
Proof.
  unfold draw_on. destruct (h !! frame) as [[img|d]|] eqn:Hframe; simpl;
    try apply only_drawn_on_refl.
  destruct (draw img) as [img'|e]; simpl; [|apply only_drawn_on_refl].
  intros l. destruct (decide (l = frame)) as [->|Hne].
  - right. split; [apply list_elem_of_singleton; done|].
    exists img, img'. by rewrite lookup_insert_eq.
  - left. by rewrite lookup_insert_ne.
Qed.

(** One step of a proof that a method only draws: the method is [c ≫= k]. *)
Lemma bind_only_drawn_on {A B : Type} (frames : list nat) (c : M heap A)
    (k : A -> M heap B) (h : heap) :
  only_drawn_on frames h (c h).2 ->
  (forall a h1, only_drawn_on frames h1 (k a h1).2) ->
  only_drawn_on frames h ((c ≫= k) h).2.
Proof.
  intros Hc Hk. rewrite M_bind_unfold.
  destruct (c h) as [[a|e] h1]; simpl in *; [|exact Hc].
  eapply only_drawn_on_trans; [exact Hc | apply Hk].
Qed.

Lemma items_loop_only (frame : nat) (items : list (Z * bbox)) (h : heap) :
  only_drawn_on [frame] h (items_loop frame items h).2.
Proof.
  revert h. induction items as [|[track_id [x1 y1 x2 y2]] items IH]; intros h.
  - apply only_drawn_on_refl.
  - cbn [items_loop].
    repeat first
      [ apply bind_only_drawn_on; [|intros ? ?]
      | apply only_drawn_on_refl
      | apply draw_on_only
      | apply IH ].
Qed.

Lemma dict_items_state (player_dict : nat) (h : heap) : (dict_items player_dict h).2 = h.
Proof. unfold dict_items. by destruct (h !! player_dict) as [[?|?]|]. Qed.

Lemma zip_loop_only (pairs : list (nat * nat)) (output_frames : list nat) (h : heap) :
  only_drawn_on pairs.*1 h (zip_loop pairs output_frames h).2.
Proof.
  revert output_frames h.
  induction pairs as [|[frame player_dict] pairs IH]; intros output_frames h.
  - apply only_drawn_on_refl.
  - cbn [zip_loop]. rewrite fmap_cons. simpl fst.
    apply bind_only_drawn_on.
    { rewrite dict_items_state. apply only_drawn_on_refl. }
    intros items h1. apply bind_only_drawn_on.
    { eapply only_drawn_on_mono; [|apply items_loop_only].
      intros l Hl. apply list_elem_of_singleton in Hl as ->. left. }
    intros _ h2. eapply only_drawn_on_mono; [|apply IH].
    intros l Hl. by right.
Qed.

Lemma zip_fst_subseteq (frames player_detections : list nat) :
  (zip frames player_detections).*1 ⊆ frames.
Proof.
  revert player_detections. induction frames as [|f frames IH]; intros [|d ds]; simpl;
    try (intros l Hl; by apply elem_of_nil in Hl).
  intros l Hl. apply elem_of_cons in Hl as [->|Hl]; [left|right; by eapply IH].
Qed.

Lemma draw_bboxes_only (frames player_detections : list nat) (h : heap) :
  only_drawn_on frames h (draw_bboxes frames player_detections h).2.
Proof.
  unfold draw_bboxes. eapply only_drawn_on_mono; [apply zip_fst_subseteq|].
  apply zip_loop_only.
Qed.

(** C9. [draw_bboxes] alters no detection data: a dict of the heap holds
    after the call, whether it returned or raised, the items it held before;
    and whatever differs after the call is a frame buffer among the frames
    the call was given. *)
Theorem draw_bboxes_keeps_detections (frames player_detections : list nat) (h : heap)
    (l : nat) (d : detection_set) :
  h !! l = Some (Dict d) ->
  (draw_bboxes frames player_detections h).2 !! l = Some (Dict d) /\
  only_drawn_on frames h (draw_bboxes frames player_detections h).2.
Proof.
  intros Hdict. split; [|apply draw_bboxes_only].
  destruct (draw_bboxes_only frames player_detections h l)
    as [Hsame|(_ & img & _ & Hframe & _)]; congruence.
Qed.

End DrawingFacts.

(** Two frames, the second with no detection: the first frame gets a label
    and a rectangle per detection, the second is returned as it was, and the
    two dicts are as they were. *)
Example draw_bboxes_two_frames :
  @draw_bboxes recording_cv2 [0; 1] [2; 3]
    {[ 0 := @Frame recording_cv2 []; 1 := @Frame recording_cv2 [];
       2 := @Dict recording_cv2 two_players; 3 := @Dict recording_cv2 [] ]}
  = (Ok [0; 1],
     {[ 0 := @Frame recording_cv2
               [PutText "Player ID: 1" (0, -10)%Z; Rectangle (0, 0)%Z (10, 10)%Z;
                PutText "Player ID: 2" (100, 90)%Z; Rectangle (100, 100)%Z (110, 110)%Z];
        1 := @Frame recording_cv2 [];
        2 := @Dict recording_cv2 two_players; 3 := @Dict recording_cv2 [] ]}).
Proof. reflexivity. Qed.

(** The theorem of C9 on the heap of the example above, at the dict of the
    first frame. *)
Lemma draw_bboxes_keeps_detections_witness :
  ({[ 0 := @Frame recording_cv2 []; 1 := @Frame recording_cv2 [];
      2 := @Dict recording_cv2 [(1%Z, Bbox 0 0 10 10); (2%Z, Bbox 100 100 110 110)];
      3 := @Dict recording_cv2 [] ]} : gmap nat (@object recording_cv2)) !! 2
  = Some (@Dict recording_cv2 [(1%Z, Bbox 0 0 10 10); (2%Z, Bbox 100 100 110 110)]) /\
  (@draw_bboxes recording_cv2 [0; 1] [2; 3]
     {[ 0 := @Frame recording_cv2 []; 1 := @Frame recording_cv2 [];
        2 := @Dict recording_cv2 [(1%Z, Bbox 0 0 10 10); (2%Z, Bbox 100 100 110 110)];
        3 := @Dict recording_cv2 [] ]}).2 !! 2
  = Some (@Dict recording_cv2 [(1%Z, Bbox 0 0 10 10); (2%Z, Bbox 100 100 110 110)]) /\
  @only_drawn_on recording_cv2 [0; 1]
    {[ 0 := @Frame recording_cv2 []; 1 := @Frame recording_cv2 [];
       2 := @Dict recording_cv2 [(1%Z, Bbox 0 0 10 10); (2%Z, Bbox 100 100 110 110)];
       3 := @Dict recording_cv2 [] ]}
    (@draw_bboxes recording_cv2 [0; 1] [2; 3]
       {[ 0 := @Frame recording_cv2 []; 1 := @Frame recording_cv2 [];
          2 := @Dict recording_cv2 [(1%Z, Bbox 0 0 10 10); (2%Z, Bbox 100 100 110 110)];
          3 := @Dict recording_cv2 [] ]}).2.
Proof.
  split; [reflexivity|].
  apply (@draw_bboxes_keeps_detections recording_cv2). reflexivity.
Defined.

(** * Further properties *)

(** ** Player selection *)

Lemma filter_all {A : Type} (P : A -> Prop) `{!forall x, Decision (P x)} (l : list A) :
  (forall x, x ∈ l -> P x) -> filter P l = l.
Proof.
  induction l as [|x l IH]; intros HP; [reflexivity|].
  rewrite filter_cons_True by (apply HP; left).
  rewrite IH; [reflexivity|]. intros y Hy. apply HP. by right.
Qed.

Lemma filter_none {A : Type} (P : A -> Prop) `{!forall x, Decision (P x)} (l : list A) :
  (forall x, x ∈ l -> ~ P x) -> filter P l = [].
Proof.
  induction l as [|x l IH]; intros HP; [reflexivity|].
  rewrite filter_cons_False by (apply HP; left).
  apply IH. intros y Hy. apply HP. by right.
Qed.

Section SelectorLaws.
Context `{BboxUtils}.

(** Whenever [choose_players] returns, it returns the first two keys. *)
Lemma choose_players_ok (court_keypoints : list float) (d : detection_set)
    (chosen_players : list Z) :
  choose_players court_keypoints d = Ok chosen_players ->
  chosen_players = (take 2 d).*1.
Proof.
  intros Hok. destruct d as [|item d].
  - rewrite choose_players_nil in Hok. by injection Hok as <-.
  - destruct (decide (length court_keypoints < 2)) as [Hshort|Hlong].
    + rewrite choose_players_short in Hok by done. discriminate.
    + rewrite choose_players_long in Hok by lia. by injection Hok as <-.
Qed.

Lemma kept_take_2 (d : detection_set) :
  dict_wf d -> kept (take 2 d).*1 d = take 2 d.
Proof.
  intros Hwf. rewrite <- (take_drop 2 d) at 2. unfold kept.
  rewrite filter_app.
  assert (Hfront : filter (fun item : Z * bbox => item.1 ∈ (take 2 d).*1) (take 2 d)
                   = take 2 d).
  { apply filter_all. intros item Hin. by apply list_elem_of_fmap_2. }
  assert (Hback : filter (fun item : Z * bbox => item.1 ∈ (take 2 d).*1) (drop 2 d) = []).
  { apply filter_none. intros item Hin Hkey.
    unfold dict_wf in Hwf. rewrite <- (take_drop 2 d), fmap_app in Hwf.
    apply NoDup_app in Hwf as (_ & Hdisj & _).
    apply (Hdisj _ Hkey). by apply list_elem_of_fmap_2. }
  by rewrite Hfront, Hback, app_nil_r.
Qed.

Lemma kept_wf (chosen_players : list Z) (d : detection_set) :
  dict_wf d -> dict_wf (kept chosen_players d).
Proof.
  unfold dict_wf, kept. intros Hwf.
  eapply sublist_NoDup; [exact Hwf|].
  apply fmap_sublist, sublist_filter.
Qed.

Lemma kept_idemp (chosen_players : list Z) (d : detection_set) :
  kept chosen_players (kept chosen_players d) = kept chosen_players d.
Proof.
  unfold kept. apply filter_all. intros item Hin.
  by apply list_elem_of_filter in Hin as [? _].
Qed.

Lemma kept_length (chosen_players : list Z) (d : detection_set) :
  dict_wf d -> length (kept chosen_players d) <= length chosen_players.
Proof.
  intros Hwf. rewrite <- (length_fmap fst (kept chosen_players d)).
  apply submseteq_length, NoDup_submseteq; [by apply kept_wf|].
  intros k Hk. apply list_elem_of_fmap in Hk as (item & -> & Hitem).
  by apply elem_of_kept in Hitem as [_ ?].
Qed.

(** X1. On a keypoint sequence of two scalars or more, [choose_players]
    returns the first two keys of the dict, in the order of the dict, for any
    helpers and any boxes: the keypoint loop does not run, no distance is
    measured, and the sort moves nothing. *)
Theorem choose_players_first_two_keys (court_keypoints : list float) (d : detection_set) :
  2 <= length court_keypoints ->
  choose_players court_keypoints d = Ok (take 2 d).*1.
Proof. apply choose_players_long. Qed.

(** X2. [choose_players] raises in one case only: a keypoint sequence of
    fewer than two scalars with a detection set that is not empty; what it
    raises then is the [IndexError] of the keypoint read. *)
Theorem choose_players_raises_iff (court_keypoints : list float) (d : detection_set)
    (e : exn) :
  choose_players court_keypoints d = Raise e <->
  e = IndexError /\ length court_keypoints < 2 /\ d <> [].
Proof.
  split.
  - intros Hraise. destruct d as [|item d].
    + rewrite choose_players_nil in Hraise. discriminate.
    + destruct (decide (length court_keypoints < 2)) as [Hshort|Hlong].
      * rewrite choose_players_short in Hraise by done.
        injection Hraise as <-. done.
      * rewrite choose_players_long in Hraise by lia. discriminate.
  - intros (-> & Hshort & Hne). by apply choose_players_short.
Qed.

(** X3. What [choose_players] returns are track ids of the dict it was
    given: two of them, or as many as the dict has, and no id twice. *)
Theorem choose_players_chooses_keys (court_keypoints : list float) (d : detection_set)
    (chosen_players : list Z) :
  dict_wf d ->
  choose_players court_keypoints d = Ok chosen_players ->
  length chosen_players = min 2 (length d) /\
  NoDup chosen_players /\
  forall track_id, track_id ∈ chosen_players -> track_id ∈ d.*1.
Proof.
  intros Hwf Hok. apply choose_players_ok in Hok as ->.
  split_and!.
  - by rewrite length_fmap, length_take.
  - rewrite fmap_take. eapply sublist_NoDup; [exact Hwf|]. apply sublist_take.
  - intros track_id Hin. rewrite fmap_take in Hin.
    by apply (subseteq_take 2 (d.*1)).
Qed.

(** X4. Every dict [choose_and_filter_players] returns has at most two
    items. *)
Theorem choose_and_filter_players_at_most_two (court_keypoints : list float)
    (player_detections filtered : list detection_set) :
  Forall dict_wf player_detections ->
  choose_and_filter_players court_keypoints player_detections = Ok filtered ->
  Forall (fun filtered_player_dict => length filtered_player_dict <= 2) filtered.
Proof.
  intros Hwf Hok. destruct player_detections as [|first rest]; [discriminate|].
  rewrite (choose_and_filter_players_cons _ _ _ Hwf) in Hok.
  destruct (choose_players court_keypoints first) as [chosen_players|e] eqn:Hchosen;
    [|discriminate].
  assert (filtered = kept chosen_players <$> first :: rest) as -> by congruence.
  clear Hok. apply choose_players_ok in Hchosen.
  apply Forall_fmap. eapply Forall_impl; [exact Hwf|].
  intros d Hd. simpl. etrans; [by apply kept_length|].
  subst chosen_players. rewrite length_fmap, length_take. lia.
Qed.

(** X5. Filtering twice is filtering once: on what it returned,
    [choose_and_filter_players] chooses the same players and returns the
    same sequence. *)
Theorem choose_and_filter_players_idempotent (court_keypoints : list float)
    (player_detections filtered : list detection_set) :
  Forall dict_wf player_detections ->
  choose_and_filter_players court_keypoints player_detections = Ok filtered ->
  choose_and_filter_players court_keypoints filtered = Ok filtered.
Proof.
  intros Hwf Hok. destruct player_detections as [|first rest]; [discriminate|].
  rewrite (choose_and_filter_players_cons _ _ _ Hwf) in Hok.
  destruct (choose_players court_keypoints first) as [chosen_players|e] eqn:Hchosen;
    [|discriminate].
  assert (filtered = kept chosen_players <$> first :: rest) as -> by congruence.
  clear Hok.
  assert (Hwf' : Forall dict_wf (kept chosen_players <$> first :: rest)).
  { apply Forall_fmap. eapply Forall_impl; [exact Hwf|]. intros d. apply kept_wf. }
  rewrite fmap_cons in *. rewrite (choose_and_filter_players_cons _ _ _ Hwf').
  pose proof (choose_players_ok _ _ _ Hchosen) as Heq.
  assert (Hfirst : kept chosen_players first = take 2 first).
  { subst chosen_players. apply kept_take_2. by apply Forall_cons in Hwf as [? _]. }
  assert (Hagain : choose_players court_keypoints (kept chosen_players first)
                   = Ok chosen_players).
  { rewrite Hfirst. destruct first as [|item first]; [exact Hchosen|].
    destruct (decide (length court_keypoints < 2)) as [Hshort|Hlong].
    - rewrite choose_players_short in Hchosen by done. discriminate.
    - rewrite choose_players_long by lia. rewrite take_take. by rewrite Heq. }
  rewrite Hagain. rewrite <- fmap_cons, <- list_fmap_compose.
  f_equal. apply list_fmap_ext. intros _ d _. simpl. apply kept_idemp.
Qed.

End SelectorLaws.

Lemma clip_wf : Forall dict_wf (far_first :: clip_tail).
Proof.
  repeat constructor; unfold dict_wf; simpl; apply (bool_decide_unpack _); reflexivity.
Qed.

Lemma far_first_wf : dict_wf far_first.
Proof. unfold dict_wf. simpl. apply (bool_decide_unpack _). reflexivity. Qed.

(** The theorem of X1 on the first frame of the clip. *)
Lemma choose_players_first_two_keys_witness :
  2 <= length [0; 0; 200; 200]%float /\
  @choose_players spec_bbox_utils [0; 0; 200; 200]%float far_first
  = Ok (take 2 far_first).*1.
Proof.
  split; [simpl; lia|].
  apply (@choose_players_first_two_keys spec_bbox_utils). simpl; lia.
Defined.

(** The theorem of X3 on the first frame of the clip. *)
Lemma choose_players_chooses_keys_witness :
  dict_wf far_first /\
  @choose_players spec_bbox_utils [0; 0; 200; 200]%float far_first = Ok [1%Z; 2%Z] /\
  length [1%Z; 2%Z] = min 2 (length far_first) /\
  NoDup [1%Z; 2%Z] /\
  forall track_id, track_id ∈ [1%Z; 2%Z] -> track_id ∈ far_first.*1.
Proof.
  split; [exact far_first_wf|]. split; [reflexivity|].
  apply (@choose_players_chooses_keys spec_bbox_utils [0; 0; 200; 200]%float);
    [exact far_first_wf | reflexivity].
Defined.

(** The theorem of X4 on the clip. *)
Lemma choose_and_filter_players_at_most_two_witness :
  Forall dict_wf (far_first :: clip_tail) /\
  @choose_and_filter_players spec_bbox_utils [0; 0; 200; 200]%float (far_first :: clip_tail)
  = Ok filtered_clip /\
  Forall (fun filtered_player_dict : detection_set => length filtered_player_dict <= 2)
    filtered_clip.
Proof.
  split; [exact clip_wf|]. split; [reflexivity|].
  apply (@choose_and_filter_players_at_most_two spec_bbox_utils [0; 0; 200; 200]%float
           (far_first :: clip_tail));
    [exact clip_wf | reflexivity].
Defined.

(** The theorem of X5 on the clip. *)
Lemma choose_and_filter_players_idempotent_witness :
  Forall dict_wf (far_first :: clip_tail) /\
  @choose_and_filter_players spec_bbox_utils [0; 0; 200; 200]%float (far_first :: clip_tail)
  = Ok filtered_clip /\
  @choose_and_filter_players spec_bbox_utils [0; 0; 200; 200]%float filtered_clip
  = Ok filtered_clip.
Proof.
  split; [exact clip_wf|]. split; [reflexivity|].
  apply (@choose_and_filter_players_idempotent spec_bbox_utils [0; 0; 200; 200]%float
           (far_first :: clip_tail));
    [exact clip_wf | reflexivity].
Defined.

(** ** Detection *)

Lemma dict_get_setitem {V : Type} (k k' : Z) (v : V) (d : list (Z * V)) :
  dict_get (dict_setitem k v d) k' = if decide (k = k') then Some v else dict_get d k'.
Proof.
  induction d as [|[k0 v0] d IH]; simpl.
  - destruct (decide (k = k')); reflexivity.
  - destruct (decide (k0 = k)) as [->|Hne]; simpl.
    + destruct (decide (k = k')); reflexivity.
    + rewrite IH. destruct (decide (k0 = k')) as [->|]; [|reflexivity].
      by rewrite decide_False by done.
Qed.

Lemma elem_of_dict_get {V : Type} (d : list (Z * V)) (k : Z) (v : V) :
  dict_wf d -> (k, v) ∈ d <-> dict_get d k = Some v.
Proof.
  unfold dict_wf. induction d as [|[k0 v0] d IH]; intros Hwf; simpl.
  - split; [intros Hin; by apply elem_of_nil in Hin | discriminate].
  - rewrite fmap_cons in Hwf. apply NoDup_cons in Hwf as [Hfresh Hwf]. simpl in Hfresh.
    rewrite elem_of_cons. destruct (decide (k0 = k)) as [->|Hne].
    + split.
      * intros [[= -> ]|Hin]; [reflexivity|].
        exfalso. apply Hfresh. by apply (list_elem_of_fmap_2 fst) in Hin.
      * intros [= ->]. by left.
    + rewrite <- (IH Hwf). split; [intros [[= ? ?]|?]; [congruence|done] | by right].
Qed.

Section DetectorLaws.
Context `{Yolo} `{Pickle} `{FileSystem}.

Lemma box_loop_get (id_name_dict : gmap Z string) (boxes : list yolo_box)
    (player_dict d : detection_set) (track_id : Z) :
  box_loop id_name_dict boxes player_dict = Ok d ->
  dict_get d track_id =
  match last_person_box id_name_dict boxes track_id with
  | Some b => Some b
  | None => dict_get player_dict track_id
  end.
Proof.
  revert player_dict. unfold last_person_box.
  induction boxes as [|box boxes IH]; intros player_dict; simpl.
  - by intros [= <-].
  - destruct (box_id box) as [i|] eqn:Hid; [|discriminate]. simpl.
    destruct (id_name_dict !! box_cls box) as [n|] eqn:Hname; [|discriminate]. simpl.
    intros Hloop. rewrite (IH _ Hloop). clear IH Hloop.
    destruct (decide (person_box id_name_dict track_id box)) as [[Hi Hn]|Hnot].
    + rewrite filter_cons_True by done. rewrite last_cons.
      destruct (last (filter (person_box id_name_dict track_id) boxes)); [reflexivity|].
      simpl. assert (i = track_id) as -> by congruence.
      assert (n = "person") as -> by congruence.
      simpl. rewrite dict_get_setitem. by rewrite decide_True.
    + rewrite filter_cons_False by done.
      destruct (last (filter (person_box id_name_dict track_id) boxes)); [reflexivity|].
      simpl. destruct (String.eqb n "person") eqn:Hperson; [|reflexivity].
      rewrite dict_get_setitem. apply String.eqb_eq in Hperson.
      rewrite decide_False; [reflexivity|].
      intros ->. apply Hnot. split; congruence.
Qed.

Lemma box_loop_bad (id_name_dict : gmap Z string) (pre post : list yolo_box)
    (box : yolo_box) (player_dict : detection_set) (e : exn) :
  Forall (box_readable id_name_dict) pre ->
  box_id box = None /\ e = AttributeError \/
  is_Some (box_id box) /\ id_name_dict !! box_cls box = None /\ e = KeyError ->
  box_loop id_name_dict (pre ++ box :: post) player_dict = Raise e.
Proof.
  intros Hpre Hbad. revert player_dict.
  induction Hpre as [|b pre [[i Hi] [n Hn]] _ IH]; intros player_dict; simpl.
  - destruct Hbad as [[-> ->]|([i ->] & -> & ->)]; reflexivity.
  - rewrite Hi, Hn. simpl. apply IH.
Qed.

Lemma frames_loop_app (frames frames' : list frame) (player_detections : list detection_set)
    (w : world) :
  frames_loop (frames ++ frames') player_detections w =
  match frames_loop frames player_detections w with
  | (Ok ds, w1) => frames_loop frames' ds w1
  | (Raise e, w1) => (Raise e, w1)
  end.
Proof.
  revert player_detections w.
  induction frames as [|f frames IH]; intros player_detections w; simpl; [reflexivity|].
  rewrite !M_bind_unfold. destruct (detect_frame f w) as [[d|e] w1]; [|reflexivity].
  apply IH.
Qed.

Lemma frames_loop_tracked (frames : list frame) (player_detections ds : list detection_set)
    (w w' : world) :
  frames_loop frames player_detections w = (Ok ds, w') ->
  length ds = length player_detections + length frames /\
  tracked w' = tracked w ++ frames /\
  model_state w' = foldl (fun m f => (track m f).1) (model_state w) frames.
Proof.
  revert player_detections w.
  induction frames as [|f frames IH]; intros player_detections w; simpl.
  - intros [= <- <-]. rewrite app_nil_r. split_and!; [lia|done|done].
  - rewrite M_bind_unfold. pose proof (detect_frame_world f w) as Hworld.
    destruct (detect_frame f w) as [[d|e] w1]; [|discriminate].
    simpl in Hworld. subst w1. intros Hloop.
    destruct (IH _ _ Hloop) as (Hlen & Htracked & Hmodel).
    rewrite length_app in Hlen. simpl in *.
    split_and!; [lia| |done]. by rewrite Htracked, <- app_assoc.
Qed.

Lemma frames_loop_raise (frames : list frame) (w w' : world) (e : exn) :
  frames_loop frames [] w = (Raise e, w') ->
  exists i f ds,
    frames !! i = Some f /\
    (frames_loop (take i frames) [] w).1 = Ok ds /\
    (detect_frame f (frames_loop (take i frames) [] w).2).1 = Raise e /\
    tracked w' = tracked w ++ take (S i) frames /\
    files w' = files w.
Proof.
  revert w. induction frames as [|f0 frames IH]; intros w; [discriminate|].
  rewrite frames_loop_cons. pose proof (detect_frame_world f0 w) as Hworld.
  destruct (detect_frame f0 w) as [[d0|e0] w1] eqn:Hd0; simpl in Hworld; subst w1;
    cbn beta iota.
  - destruct (frames_loop frames [] (tracked_one f0 w)) as [[ds|e1] w2] eqn:Hloop;
      [discriminate|].
    intros Heq. inversion Heq; subst e1 w2; clear Heq.
    destruct (IH _ Hloop) as (i & f & ds & Hf & Hpre & Hbad & Htr & Hfiles).
    exists (S i), f, (d0 :: ds). simpl take. rewrite frames_loop_cons, Hd0.
    destruct (frames_loop (take i frames) [] (tracked_one f0 w)) as [[ds'|e'] w3];
      [|discriminate].
    simpl in *. injection Hpre as ->.
    split_and!; try done. rewrite Htr. simpl. by rewrite <- app_assoc.
  - intros Heq. inversion Heq; subst e0 w'; clear Heq.
    exists 0, f0, []. simpl. rewrite Hd0. by split_and!.
Qed.

(** X6. The dict [detect_frame] returns holds the persons the tracker
    reported, and nothing else: its keys do not repeat, and a track id maps to
    a box exactly when that box is the last one the tracker reported for a
    person with that id. *)
Theorem detect_frame_keeps_persons (f : frame) (w w' : world) (player_dict : detection_set) :
  detect_frame f w = (Ok player_dict, w') ->
  exists results rest,
    (track (model_state w) f).2 = results :: rest /\
    dict_wf player_dict /\
    forall track_id b,
      (track_id, b) ∈ player_dict <->
      last_person_box (names results) (boxes results) track_id = Some b.
Proof.
  intros Hframe. pose proof (detect_frame_wf _ _ _ _ Hframe) as Hwf.
  unfold detect_frame in Hframe. rewrite M_bind_unfold in Hframe.
  unfold model_track in Hframe. destruct (track (model_state w) f) as [m results_list].
  rewrite M_bind_unfold in Hframe. unfold lift in Hframe.
  destruct results_list as [|results rest]; [discriminate|].
  change (py_index (results :: rest) 0) with (Ok results) in Hframe.
  cbn beta iota zeta in Hframe.
  destruct (box_loop (names results) (boxes results) []) as [d|e] eqn:Hloop;
    [|discriminate].
  assert (d = player_dict) as -> by congruence. exists results, rest. split_and!; [done|done|].
  intros track_id b. rewrite (elem_of_dict_get _ _ _ Hwf), (box_loop_get _ _ _ _ _ Hloop).
  simpl. by destruct (last_person_box (names results) (boxes results) track_id).
Qed.

(** X7. [detect_frame] raises at the first box it cannot read:
    [AttributeError] when the box has no track id, [KeyError] when its class
    id has no name, whether or not the box is a person. The tracker has been
    called by then. *)
Theorem detect_frame_first_unreadable_box (f : frame) (w : world) (results : yolo_results)
    (rest : list yolo_results) (pre post : list yolo_box) (box : yolo_box) (e : exn) :
  (track (model_state w) f).2 = results :: rest ->
  boxes results = pre ++ box :: post ->
  Forall (box_readable (names results)) pre ->
  box_id box = None /\ e = AttributeError \/
  is_Some (box_id box) /\ names results !! box_cls box = None /\ e = KeyError ->
  detect_frame f w = (Raise e, tracked_one f w).
Proof.
  intros Htrack Hboxes Hpre Hbad.
  rewrite <- (detect_frame_world f w).
  unfold detect_frame. rewrite M_bind_unfold.
  unfold model_track. destruct (track (model_state w) f) as [m results_list].
  simpl in Htrack. subst results_list.
  rewrite M_bind_unfold. unfold lift. simpl.
  by rewrite Hboxes, (box_loop_bad _ _ _ _ _ _ Hpre Hbad).
Qed.

(** X8. A call of [detect_frames] with a [stub_path], not reading, that
    returns has written the pickle of what it returns at [stub_path], in place
    of what was there, and has changed no other file; it returns one dict per
    frame and has called the tracker on each frame, in order. *)
Theorem detect_frames_writes_stub (frames : list frame) (stub_path : string) (w w' : world)
    (player_detections : list detection_set) :
  detect_frames frames false (Some stub_path) w = (Ok player_detections, w') ->
  files w' = <[stub_path := pickle_dumps player_detections]> (files w) /\
  length player_detections = length frames /\
  tracked w' = tracked w ++ frames.
Proof.
  unfold detect_frames. rewrite M_bind_unfold.
  destruct (frames_loop frames [] w) as [[ds|e] w1] eqn:Hloop; [|discriminate].
  rewrite M_bind_unfold. unfold dump_stub.
  destruct (open_wb stub_path) as [[]|e]; [|discriminate].
  intros Heq. inversion Heq; subst; clear Heq. simpl.
  destruct (frames_loop_tracked _ _ _ _ _ Hloop) as (Hlen & Htracked & _).
  pose proof (frames_loop_files frames [] w) as Hfiles. rewrite Hloop in Hfiles.
  simpl in *. by rewrite Hfiles.
Qed.

(** X9. [detect_frames] changes no file when it has no [stub_path], when
    it reads the stub, and when it raises: a run that fails leaves no stub. *)
Theorem detect_frames_keeps_files (frames : list frame) (read_from_stub : bool)
    (stub_path : option string) (w : world) :
  stub_path = None \/ read_from_stub = true \/
  (exists e, (detect_frames frames read_from_stub stub_path w).1 = Raise e) ->
  files (detect_frames frames read_from_stub stub_path w).2 = files w.
Proof.
  intros Hcase. pose proof (frames_loop_files frames [] w) as Hfiles.
  unfold detect_frames in *.
  destruct read_from_stub, stub_path as [path|].
  - unfold load_stub. destruct (files w !! path) as [b|]; [|done].
    by destruct (pickle_loads b).
  - rewrite M_bind_unfold. by destruct (frames_loop frames [] w) as [[ds|e] w1].
  - rewrite M_bind_unfold in *.
    destruct (frames_loop frames [] w) as [[ds|e] w1]; [|done].
    rewrite M_bind_unfold in *. unfold dump_stub in *.
    destruct (open_wb path) as [[]|e]; [|done].
    destruct Hcase as [?|[?|[e He]]]; discriminate.
  - rewrite M_bind_unfold. by destruct (frames_loop frames [] w) as [[ds|e] w1].
Qed.

(** X10. Detecting on a clip in two parts, the second part from the world
    the first part left, gives what detecting on the whole clip gives. *)
Theorem detect_frames_app (frames frames' : list frame) (w w1 w2 : world)
    (ds ds' : list detection_set) :
  detect_frames frames false None w = (Ok ds, w1) ->
  detect_frames frames' false None w1 = (Ok ds', w2) ->
  detect_frames (frames ++ frames') false None w = (Ok (ds ++ ds'), w2).
Proof.
  rewrite !detect_frames_uncached. intros Hfirst Hsecond.
  by rewrite frames_loop_app, Hfirst, frames_loop_acc, Hsecond.
Qed.

(** X11. When [detect_frames] raises while computing, no file was written,
    and one of two things happened. Either it raises what [detect_frame]
    raised on the first frame it failed on: the frames before were detected,
    and the tracker was called on no frame after. Or every frame was detected,
    and it raises what opening the stub for writing raised. *)
Theorem detect_frames_stops_at_first_failure (frames : list frame) (read_from_stub : bool)
    (stub_path : option string) (w w' : world) (e : exn) :
  read_from_stub = false \/ stub_path = None ->
  detect_frames frames read_from_stub stub_path w = (Raise e, w') ->
  files w' = files w /\
  ((exists i f ds,
      frames !! i = Some f /\
      (detect_frames (take i frames) false None w).1 = Ok ds /\
      (detect_frame f (detect_frames (take i frames) false None w).2).1 = Raise e /\
      tracked w' = tracked w ++ take (S i) frames) \/
   (exists path ds,
      stub_path = Some path /\
      detect_frames frames false None w = (Ok ds, w') /\
      open_wb path = Raise e /\
      tracked w' = tracked w ++ frames)).
Proof.
  intros Huncached Hraise.
  assert (Hcases :
    frames_loop frames [] w = (Raise e, w') \/
    exists path ds,
      stub_path = Some path /\ frames_loop frames [] w = (Ok ds, w') /\
      open_wb path = Raise e).
  { unfold detect_frames in Hraise.
    destruct read_from_stub, stub_path as [path|];
      try (destruct Huncached; discriminate);
      rewrite M_bind_unfold in Hraise;
      destruct (frames_loop frames [] w) as [[ds|e0] w1]; try (left; exact Hraise);
      try discriminate;
      rewrite M_bind_unfold in Hraise; unfold dump_stub in Hraise;
      destruct (open_wb path) as [[]|e1] eqn:Hopen; try discriminate;
      right; exists path, ds; inversion Hraise; subst; done. }
  destruct Hcases as [Hloop|(path & ds & -> & Hloop & Hopen)].
  - destruct (frames_loop_raise _ _ _ _ Hloop) as (i & f & ds & Hf & Hpre & Hbad & Htr & Hfiles).
    split; [exact Hfiles|]. left. exists i, f, ds. by rewrite detect_frames_uncached.
  - pose proof (frames_loop_files frames [] w) as Hfiles. rewrite Hloop in Hfiles.
    destruct (frames_loop_tracked _ _ _ _ _ Hloop) as (_ & Htracked & _).
    split; [exact Hfiles|]. right. exists path, ds. by rewrite detect_frames_uncached.
Qed.

End DetectorLaws.

(** The theorem of X6 on a frame of the counting tracker: the ball is left
    out. *)
Lemma detect_frame_keeps_persons_witness :
  @detect_frame counting_yolo stack_pickle 7 first_run
  = (Ok two_players, @World counting_yolo stack_pickle 1 [7] ∅) /\
  exists results rest,
    (@track counting_yolo (model_state first_run) 7).2 = results :: rest /\
    dict_wf two_players /\
    forall track_id b,
      (track_id, b) ∈ two_players <->
      last_person_box (names results) (boxes results) track_id = Some b.
Proof.
  split; [reflexivity|].
  apply (@detect_frame_keeps_persons counting_yolo stack_pickle 7 first_run
           (@World counting_yolo stack_pickle 1 [7] ∅)).
  reflexivity.
Defined.

(** The theorem of X7 on frame 8 of the flaky tracker: the ball has no track
    id. *)
Lemma detect_frame_first_unreadable_box_witness :
  (@track flaky_yolo (model_state flaky_run) 8).2
  = [YoloResults {[ 0%Z := "person"; 32%Z := "sports ball" ]}
       [YoloBox (Some 1%Z) (Bbox 0 0 10 10) 0;
        YoloBox None (Bbox 50 50 52 52) 32;
        YoloBox (Some 2%Z) (Bbox 100 100 110 110) 0]] /\
  Forall (box_readable {[ 0%Z := "person"; 32%Z := "sports ball" ]})
    [YoloBox (Some 1%Z) (Bbox 0 0 10 10) 0] /\
  @detect_frame flaky_yolo stack_pickle 8 flaky_run
  = (Raise AttributeError, @tracked_one flaky_yolo stack_pickle 8 flaky_run).
Proof.
  assert (Hpre : Forall (box_readable {[ 0%Z := "person"; 32%Z := "sports ball" ]})
                   [YoloBox (Some 1%Z) (Bbox 0 0 10 10) 0]).
  { repeat constructor; simpl; by eexists. }
  split; [reflexivity|]. split; [exact Hpre|].
  apply (@detect_frame_first_unreadable_box flaky_yolo stack_pickle 8 flaky_run
           (YoloResults {[ 0%Z := "person"; 32%Z := "sports ball" ]}
              [YoloBox (Some 1%Z) (Bbox 0 0 10 10) 0;
               YoloBox None (Bbox 50 50 52 52) 32;
               YoloBox (Some 2%Z) (Bbox 100 100 110 110) 0])
           []
           [YoloBox (Some 1%Z) (Bbox 0 0 10 10) 0]
           [YoloBox (Some 2%Z) (Bbox 100 100 110 110) 0]
           (YoloBox None (Bbox 50 50 52 52) 32));
    [reflexivity | reflexivity | exact Hpre | left; split; reflexivity].
Defined.

(** The theorem of X8 on two frames of the counting tracker. *)
Lemma detect_frames_writes_stub_witness :
  @detect_frames counting_yolo stack_pickle flat_fs [7; 8] false (Some "stub.pkl") first_run
  = (Ok [two_players; two_players],
     @World counting_yolo stack_pickle 2 [7; 8]
       {[ "stub.pkl" := pickle_detections [two_players; two_players] ]}) /\
  files (@World counting_yolo stack_pickle 2 [7; 8]
           {[ "stub.pkl" := pickle_detections [two_players; two_players] ]})
  = <["stub.pkl" := @pickle_dumps stack_pickle [two_players; two_players]]> (files first_run) /\
  length [two_players; two_players] = length [7; 8] /\
  tracked (@World counting_yolo stack_pickle 2 [7; 8]
             {[ "stub.pkl" := pickle_detections [two_players; two_players] ]})
  = tracked first_run ++ [7; 8].
Proof.
  split; [reflexivity|].
  apply (@detect_frames_writes_stub counting_yolo stack_pickle flat_fs [7; 8] "stub.pkl" first_run).
  reflexivity.
Defined.

(** The theorem of X9 on a run of the flaky tracker that fails on its second
    frame: no stub is left. *)
Lemma detect_frames_keeps_files_witness :
  (Some "stub.pkl" = None \/ false = true \/
   exists e, (@detect_frames flaky_yolo stack_pickle flat_fs [7; 8; 9] false (Some "stub.pkl")
                flaky_run).1 = Raise e) /\
  files (@detect_frames flaky_yolo stack_pickle flat_fs [7; 8; 9] false (Some "stub.pkl")
           flaky_run).2 = files flaky_run.
Proof.
  assert (Hraises : exists e,
             (@detect_frames flaky_yolo stack_pickle flat_fs [7; 8; 9] false (Some "stub.pkl")
                flaky_run).1 = Raise e).
  { exists AttributeError. reflexivity. }
  split; [right; right; exact Hraises|].
  apply (@detect_frames_keeps_files flaky_yolo stack_pickle flat_fs). right; right; exact Hraises.
Defined.

(** The theorem of X10 on a clip of three frames cut after the first. *)
Lemma detect_frames_app_witness :
  @detect_frames counting_yolo stack_pickle flat_fs [7] false None first_run
  = (Ok [two_players], @World counting_yolo stack_pickle 1 [7] ∅) /\
  @detect_frames counting_yolo stack_pickle flat_fs [8; 9] false None
    (@World counting_yolo stack_pickle 1 [7] ∅)
  = (Ok [two_players; two_players], @World counting_yolo stack_pickle 3 [7; 8; 9] ∅) /\
  @detect_frames counting_yolo stack_pickle flat_fs ([7] ++ [8; 9]) false None first_run
  = (Ok ([two_players] ++ [two_players; two_players]),
     @World counting_yolo stack_pickle 3 [7; 8; 9] ∅).
Proof.
  split; [reflexivity|]. split; [reflexivity|].
  apply (@detect_frames_app counting_yolo stack_pickle flat_fs [7] [8; 9] first_run
           (@World counting_yolo stack_pickle 1 [7] ∅));
    reflexivity.
Defined.

(** The theorem of X11 on a stub that does not open: every frame was
    detected, and the exception is the one of [open]. *)
Lemma detect_frames_stops_at_first_failure_witness :
  (false = false \/ Some "no_such_dir/stub.pkl" = None) /\
  @detect_frames counting_yolo stack_pickle flat_fs [7; 8; 9] false
    (Some "no_such_dir/stub.pkl") first_run
  = (Raise FileNotFoundError, @World counting_yolo stack_pickle 3 [7; 8; 9] ∅) /\
  files (@World counting_yolo stack_pickle 3 [7; 8; 9] ∅) = files first_run /\
  ((exists i f ds,
      [7; 8; 9] !! i = Some f /\
      (@detect_frames counting_yolo stack_pickle flat_fs (take i [7; 8; 9]) false None
         first_run).1 = Ok ds /\
      (@detect_frame counting_yolo stack_pickle f
         (@detect_frames counting_yolo stack_pickle flat_fs (take i [7; 8; 9]) false None
            first_run).2).1 = Raise FileNotFoundError /\
      tracked (@World counting_yolo stack_pickle 3 [7; 8; 9] ∅)
      = tracked first_run ++ take (S i) [7; 8; 9]) \/
   (exists path ds,
      Some "no_such_dir/stub.pkl" = Some path /\
      @detect_frames counting_yolo stack_pickle flat_fs [7; 8; 9] false None first_run
      = (Ok ds, @World counting_yolo stack_pickle 3 [7; 8; 9] ∅) /\
      @open_wb flat_fs path = Raise FileNotFoundError /\
      tracked (@World counting_yolo stack_pickle 3 [7; 8; 9] ∅)
      = tracked first_run ++ [7; 8; 9])).
Proof.
  split; [by left|]. split; [reflexivity|].
  apply (@detect_frames_stops_at_first_failure counting_yolo stack_pickle flat_fs [7; 8; 9]
           false (Some "no_such_dir/stub.pkl") first_run);
    [by left | reflexivity].
Defined.

(** A run of the flaky tracker: it fails on its second frame, with what
    [detect_frame] raised there, and frame 9 is never tracked. *)
Example detect_frames_flaky_run :
  @detect_frames flaky_yolo stack_pickle flat_fs [7; 8; 9] false (Some "stub.pkl") flaky_run
  = (Raise AttributeError, @World flaky_yolo stack_pickle 2 [7; 8] ∅) /\
  (@detect_frame flaky_yolo stack_pickle 8
     (@detect_frames flaky_yolo stack_pickle flat_fs [7] false None flaky_run).2).1
  = Raise AttributeError.
Proof. split; reflexivity. Qed.

(** ** Drawing *)

Lemma fst_zip_take {A B : Type} (l : list A) (k : list B) :
  (zip l k).*1 = take (length k) l.
Proof.
  revert k. induction l as [|x l IH]; intros [|y k]; simpl; try reflexivity.
  by rewrite IH.
Qed.

Section DrawingLaws.
Context `{Cv2}.

Lemma only_drawn_on_dict (frames : list nat) (h h' : heap) (l : nat) (d : detection_set) :
  only_drawn_on frames h h' -> h !! l = Some (Dict d) <-> h' !! l = Some (Dict d).
Proof.
  intros Hd. destruct (Hd l) as [->|(_ & img & img' & -> & ->)]; [done|].
  split; discriminate.
Qed.


Lemma only_drawn_on_other (frames : list nat) (h h' : heap) (l : nat) :
  only_drawn_on frames h h' -> l ∉ frames -> h' !! l = h !! l.
Proof. intros Hd Hl. by destruct (Hd l) as [?|[? _]]. Qed.

Lemma bind_lift_ok {S A B : Type} (a : A) (k : A -> M S B) (s : S) :
  (lift (Ok a) ≫= k) s = k a s.
Proof. reflexivity. Qed.

Lemma bind_lift_raise {S A B : Type} (e : exn) (k : A -> M S B) (s : S) :
  (lift (Raise e) ≫= k) s = (Raise e, s).
Proof. reflexivity. Qed.

Lemma bind_draw_on_frame {B : Type} (frame : nat) (draw : image -> result image)
    (k : unit -> M heap B) (h : heap) (img img' : image) :
  h !! frame = Some (Frame img) -> draw img = Ok img' ->
  (draw_on frame draw ≫= k) h = k tt (<[frame := Frame img']> h).
Proof.
  intros Hframe Hdraw. rewrite M_bind_unfold. unfold draw_on. by rewrite Hframe, Hdraw.
Qed.

Lemma bind_draw_on_raise {B : Type} (frame : nat) (draw : image -> result image)
    (k : unit -> M heap B) (h : heap) (img : image) (e : exn) :
  h !! frame = Some (Frame img) -> draw img = Raise e ->
  (draw_on frame draw ≫= k) h = (Raise e, h).
Proof.
  intros Hframe Hdraw. rewrite M_bind_unfold. unfold draw_on. by rewrite Hframe, Hdraw.
Qed.

Lemma bind_draw_on_no_frame {B : Type} (frame : nat) (draw : image -> result image)
    (k : unit -> M heap B) (h : heap) :
  (forall img, h !! frame <> Some (Frame img)) ->
  (draw_on frame draw ≫= k) h = (Raise Cv2Error, h).
Proof.
  intros Hno. rewrite M_bind_unfold. unfold draw_on.
  destruct (h !! frame) as [[img|d]|]; [by destruct (Hno img)|done|done].
Qed.

Ltac draw_step :=
  repeat first [ rewrite bind_lift_ok | rewrite bind_lift_raise ].

(** On a frame buffer, the loop over the items of a dict draws what
    [render_items] says, and raises what it raises. *)
Lemma items_loop_frame (frame : nat) (items : list (Z * bbox)) (h : heap) (img : image) :
  h !! frame = Some (Frame img) ->
  match render_items items img with
  | Ok img' => items_loop frame items h = (Ok tt, <[frame := Frame img']> h)
  | Raise e => (items_loop frame items h).1 = Raise e
  end.
Proof.
  revert h img. induction items as [|[track_id [x1 y1 x2 y2]] items IH]; intros h img Hframe.
  - simpl. by rewrite insert_id.
  - cbn [items_loop render_items]. unfold render_item. cbn [bbox_x1 bbox_y1 bbox_x2 bbox_y2].
    destruct (py_int x1) as [text_x|e]; [|reflexivity].
    destruct (py_int (y1 - 10)) as [text_y|e]; [|reflexivity].
    draw_step. cbn [mbind result_bind].
    destruct (cv2_putText img ("Player ID: " +:+ pretty track_id) (text_x, text_y))
      as [labelled|e] eqn:Hlabel.
    2: { by rewrite (bind_draw_on_raise _ _ _ _ _ _ Hframe Hlabel). }
    rewrite (bind_draw_on_frame _ _ _ _ _ _ Hframe Hlabel).
    cbn [mbind result_bind].
    destruct (py_int y1) as [top|e]; [|by draw_step].
    destruct (py_int x2) as [right|e]; [|by draw_step].
    destruct (py_int y2) as [bottom|e]; [|by draw_step].
    draw_step. cbn [mbind result_bind].
    destruct (cv2_rectangle labelled (text_x, top) (right, bottom)) as [img2|e] eqn:Hrect.
    2: { by rewrite (bind_draw_on_raise _ _ _ _ _ _ (lookup_insert_eq _ _ _) Hrect). }
    rewrite (bind_draw_on_frame _ _ _ _ _ _ (lookup_insert_eq _ _ _) Hrect).
    rewrite insert_insert_eq. cbn [mbind result_bind].
    specialize (IH (<[frame := Frame img2]> h) img2 (lookup_insert_eq _ _ _)).
    destruct (render_items items img2) as [img'|e]; [|exact IH].
    by rewrite IH, insert_insert_eq.
Qed.

Lemma items_loop_no_frame (frame : nat) (items : list (Z * bbox)) (h : heap) :
  (forall img, h !! frame <> Some (Frame img)) -> items <> [] ->
  exists e, (items_loop frame items h).1 = Raise e.
Proof.
  intros Hno Hne. destruct items as [|[track_id [x1 y1 x2 y2]] items]; [done|].
  cbn [items_loop].
  destruct (py_int x1) as [text_x|e]; [|by eexists].
  destruct (py_int (y1 - 10)) as [text_y|e]; [|by eexists].
  draw_step. rewrite bind_draw_on_no_frame by done. by eexists.
Qed.

Lemma zip_loop_out (pairs : list (nat * nat)) (output_frames out : list nat) (h h' : heap) :
  zip_loop pairs output_frames h = (Ok out, h') -> out = output_frames ++ pairs.*1.
Proof.
  revert output_frames h.
  induction pairs as [|[frame player_dict] pairs IH]; intros output_frames h.
  - simpl. intros Heq. inversion Heq. by rewrite app_nil_r.
  - cbn [zip_loop]. rewrite !M_bind_unfold.
    destruct (dict_items player_dict h) as [[items|e] h0]; [|discriminate].
    rewrite !M_bind_unfold.
    destruct (items_loop frame items h0) as [[[]|e] h1]; [|discriminate].
    intros Hloop. rewrite (IH _ _ Hloop), fmap_cons, <- app_assoc. reflexivity.
Qed.

Lemma zip_loop_renders (pairs : list (nat * nat)) (output_frames out : list nat)
    (h h' : heap) :
  zip_loop pairs output_frames h = (Ok out, h') ->
  NoDup pairs.*1 ->
  forall i frame player_dict, pairs !! i = Some (frame, player_dict) ->
    exists d,
      h !! player_dict = Some (Dict d) /\
      (d = [] /\ h' !! frame = h !! frame \/
       exists img img',
         h !! frame = Some (Frame img) /\
         render_items d img = Ok img' /\
         h' !! frame = Some (Frame img')).
Proof.
  revert output_frames h.
  induction pairs as [|[frame0 dict0] pairs IH]; intros output_frames h Hloop Hnodup i frame
    player_dict Hi; [by rewrite lookup_nil in Hi|].
  rewrite fmap_cons in Hnodup. apply NoDup_cons in Hnodup as [Hfresh Hnodup]. simpl in Hfresh.
  cbn [zip_loop] in Hloop. rewrite M_bind_unfold in Hloop.
  unfold dict_items in Hloop at 1.
  destruct (h !! dict0) as [[img0|d0]|] eqn:Hdict0; cbn beta iota in Hloop;
    [discriminate| |discriminate].
  rewrite M_bind_unfold in Hloop.
  pose proof (items_loop_only frame0 d0 h) as Honly.
  destruct (items_loop frame0 d0 h) as [[[]|e] h1] eqn:Hitems; [|discriminate].
  simpl in Honly.
  pose proof (zip_loop_only pairs (output_frames ++ [frame0]) h1) as Hrest.
  rewrite Hloop in Hrest. simpl in Hrest.
  destruct i as [|i]; simpl in Hi.
  - assert (frame = frame0 /\ player_dict = dict0) as [-> ->] by (split; congruence).
    exists d0. split; [done|].
    rewrite (only_drawn_on_other _ _ _ _ Hrest Hfresh).
    destruct d0 as [|item d0].
    + left. simpl in Hitems. by injection Hitems as <-.
    + right. destruct (h !! frame0) as [[img|d]|] eqn:Hframe0.
      * pose proof (items_loop_frame frame0 (item :: d0) h img Hframe0) as Hrender.
        destruct (render_items (item :: d0) img) as [img'|e] eqn:Hdrawn.
        -- exists img, img'. rewrite Hrender in Hitems.
           assert (h1 = <[frame0 := Frame img']> h) as -> by congruence.
           split_and!; [done|exact Hdrawn|]. by rewrite lookup_insert_eq.
        -- rewrite Hitems in Hrender. discriminate.
      * destruct (items_loop_no_frame frame0 (item :: d0) h) as [e He]; [|done|].
        { intros img. by rewrite Hframe0. }
        rewrite Hitems in He. discriminate.
      * destruct (items_loop_no_frame frame0 (item :: d0) h) as [e He]; [|done|].
        { intros img. by rewrite Hframe0. }
        rewrite Hitems in He. discriminate.
  - destruct (IH _ _ Hloop Hnodup i frame player_dict Hi) as (d & Hd & Hframe).
    exists d. split; [by apply (only_drawn_on_dict _ _ _ _ _ Honly)|].
    assert (Hne : frame ∉ [frame0]).
    { intros Hin. apply list_elem_of_singleton in Hin as ->. apply Hfresh.
      apply list_elem_of_lookup_2 in Hi. by apply (list_elem_of_fmap_2 fst) in Hi. }
    by rewrite <- (only_drawn_on_other _ _ _ _ Honly Hne).
Qed.

(** X12. When [draw_bboxes] returns, it returns the frames it was given,
    the same buffers in the same order, as many as there are dicts ([zip]
    stops at the shorter list); nothing but those buffers has changed. *)
Theorem draw_bboxes_returns_frames (frames player_detections out : list nat) (h h' : heap) :
  draw_bboxes frames player_detections h = (Ok out, h') ->
  out = take (length player_detections) frames /\ only_drawn_on out h h'.
Proof.
  unfold draw_bboxes. intros Hloop.
  pose proof (zip_loop_only (zip frames player_detections) [] h) as Honly.
  rewrite Hloop in Honly. apply zip_loop_out in Hloop. simpl in Hloop, Honly.
  rewrite fst_zip_take in *. by subst out.
Qed.

(** X13. When [draw_bboxes] returns and no frame was given twice, the
    buffer of a frame holds what the items of its dict draw on what it held,
    label then rectangle, in the order of the dict; a frame whose dict is
    empty is as it was. *)
Theorem draw_bboxes_renders (frames player_detections out : list nat) (h h' : heap) :
  draw_bboxes frames player_detections h = (Ok out, h') ->
  NoDup frames ->
  forall i frame player_dict,
    frames !! i = Some frame -> player_detections !! i = Some player_dict ->
    exists d,
      h !! player_dict = Some (Dict d) /\
      (d = [] /\ h' !! frame = h !! frame \/
       exists img img',
         h !! frame = Some (Frame img) /\
         render_items d img = Ok img' /\
         h' !! frame = Some (Frame img')).
Proof.
  unfold draw_bboxes. intros Hloop Hnodup i frame player_dict Hframe Hdict.
  apply (zip_loop_renders _ _ _ _ _ Hloop) with (i := i).
  - rewrite fst_zip_take. eapply sublist_NoDup; [exact Hnodup|]. apply sublist_take.
  - rewrite lookup_zip_with. by rewrite Hframe, Hdict.
Qed.


End DrawingLaws.

(** The theorem of X12 on three frames and two dicts: the third frame is
    not returned. *)
Lemma draw_bboxes_returns_frames_witness :
  @draw_bboxes recording_cv2 [0; 1; 4] [2; 3] two_frames = (Ok [0; 1], two_frames_drawn) /\
  [0; 1] = take (length [2; 3]) [0; 1; 4] /\
  @only_drawn_on recording_cv2 [0; 1] two_frames two_frames_drawn.
Proof.
  assert (Hdraw : @draw_bboxes recording_cv2 [0; 1; 4] [2; 3] two_frames
                  = (Ok [0; 1], two_frames_drawn)).
  { reflexivity. }
  split; [exact Hdraw|].
  apply (@draw_bboxes_returns_frames recording_cv2 [0; 1; 4] [2; 3] [0; 1]
           two_frames two_frames_drawn Hdraw).
Defined.

(** The theorem of X13 on the first frame of [two_frames]. *)
Lemma draw_bboxes_renders_witness :
  @draw_bboxes recording_cv2 [0; 1] [2; 3] two_frames = (Ok [0; 1], two_frames_drawn) /\
  NoDup [0; 1] /\
  [0; 1] !! 0 = Some 0 /\
  [2; 3] !! 0 = Some 2 /\
  exists d,
    two_frames !! 2 = Some (@Dict recording_cv2 d) /\
    (d = [] /\ two_frames_drawn !! 0 = two_frames !! 0 \/
     exists img img',
       two_frames !! 0 = Some (@Frame recording_cv2 img) /\
       @render_items recording_cv2 d img = Ok img' /\
       two_frames_drawn !! 0 = Some (@Frame recording_cv2 img')).
Proof.
  assert (Hdraw : @draw_bboxes recording_cv2 [0; 1] [2; 3] two_frames
                  = (Ok [0; 1], two_frames_drawn)).
  { reflexivity. }
  assert (Hnodup : NoDup [0; 1]).
  { apply (bool_decide_unpack _). reflexivity. }
  split; [exact Hdraw|]. split; [exact Hnodup|]. split; [reflexivity|]. split; [reflexivity|].
  apply (@draw_bboxes_renders recording_cv2 [0; 1] [2; 3] [0; 1] two_frames two_frames_drawn
           Hdraw Hnodup 0 0 2);
    reflexivity.
Defined.


(** A box whose corner is no C int: [int] returns on it and OpenCV raises,
    after the buffer was found and before anything is drawn. *)
Example draw_bboxes_corner_too_far :
  @draw_bboxes recording_cv2 [0] [2]
    {[ 0 := @Frame recording_cv2 []; 2 := @Dict recording_cv2 [(1%Z, Bbox 2147483648 20 10 10)] ]}
  = (Raise Cv2Error,
     {[ 0 := @Frame recording_cv2 []; 2 := @Dict recording_cv2 [(1%Z, Bbox 2147483648 20 10 10)] ]}).
Proof. reflexivity. Qed.


(** ** Detection, then selection *)

Section Pipeline.
Context `{BboxUtils} `{Yolo} `{Pickle} `{FileSystem}.

Lemma detect_frames_computed (frames : list frame) (read_from_stub : bool)
    (stub_path : option string) (w w' : world) (player_detections : list detection_set) :
  read_from_stub = false \/ stub_path = None ->
  detect_frames frames read_from_stub stub_path w = (Ok player_detections, w') ->
  exists w1, frames_loop frames [] w = (Ok player_detections, w1).
Proof.
  intros Huncached Hok. unfold detect_frames in Hok.
  assert (Hloop : (frames_loop frames [] w).1 = Ok player_detections).
  { destruct read_from_stub, stub_path as [path|];
      try (destruct Huncached; discriminate);
      rewrite M_bind_unfold in Hok;
      destruct (frames_loop frames [] w) as [[ds|e] w1]; try discriminate;
      try (rewrite M_bind_unfold in Hok; unfold dump_stub in Hok;
           destruct (open_wb path) as [[]|e]; try discriminate);
      inversion Hok; reflexivity. }
  exists (frames_loop frames [] w).2.
  destruct (frames_loop frames [] w) as [r w1]. simpl in Hloop. by subst r.
Qed.

(** X15. What [detect_frames] computed on a clip that is not empty can be
    handed to [choose_and_filter_players] with any keypoint sequence of two
    scalars or more: it returns one dict per frame of the clip, each the items
    of that frame whose track id is one of the first two of the first frame. *)
Theorem detect_then_choose_and_filter (frames : list frame) (read_from_stub : bool)
    (stub_path : option string) (w w' : world) (player_detections : list detection_set)
    (court_keypoints : list float) :
  read_from_stub = false \/ stub_path = None ->
  detect_frames frames read_from_stub stub_path w = (Ok player_detections, w') ->
  frames <> [] ->
  2 <= length court_keypoints ->
  exists first rest,
    player_detections = first :: rest /\
    choose_and_filter_players court_keypoints player_detections
    = Ok (kept (take 2 first).*1 <$> player_detections) /\
    length (kept (take 2 first).*1 <$> player_detections) = length frames.
Proof.
  intros Huncached Hok Hne Hlen.
  destruct (detect_frames_computed _ _ _ _ _ _ Huncached Hok) as [w1 Hloop].
  pose proof (frames_loop_wf _ _ _ _ _ Hloop (Forall_nil_2 _)) as Hwf.
  destruct (frames_loop_tracked _ _ _ _ _ Hloop) as (Hlength & _).
  simpl in Hlength.
  destruct player_detections as [|first rest].
  { destruct frames; [done | discriminate]. }
  exists first, rest. split; [reflexivity|].
  rewrite (choose_and_filter_players_cons _ _ _ Hwf), (choose_players_long _ _ Hlen).
  split; [reflexivity|]. by rewrite length_fmap.
Qed.

End Pipeline.

(** The theorem of X15 on three frames of the counting tracker. *)
Lemma detect_then_choose_and_filter_witness :
  (false = false \/ Some "stub.pkl" = None) /\
  @detect_frames counting_yolo stack_pickle flat_fs [7; 8; 9] false (Some "stub.pkl") first_run
  = (Ok [two_players; two_players; two_players],
     @World counting_yolo stack_pickle 3 [7; 8; 9]
       {[ "stub.pkl" := pickle_detections [two_players; two_players; two_players] ]}) /\
  [7; 8; 9] <> [] /\
  2 <= length [0; 0; 200; 200]%float /\
  exists first rest,
    [two_players; two_players; two_players] = first :: rest /\
    @choose_and_filter_players spec_bbox_utils [0; 0; 200; 200]%float
      [two_players; two_players; two_players]
    = Ok (kept (take 2 first).*1 <$> [two_players; two_players; two_players]) /\
    length (kept (take 2 first).*1 <$> [two_players; two_players; two_players])
    = length [7; 8; 9].
Proof.
  split; [by left|]. split; [reflexivity|]. split; [discriminate|]. split; [simpl; lia|].
  apply (@detect_then_choose_and_filter spec_bbox_utils counting_yolo stack_pickle flat_fs
           [7; 8; 9] false (Some "stub.pkl") first_run
           (@World counting_yolo stack_pickle 3 [7; 8; 9]
              {[ "stub.pkl" := pickle_detections [two_players; two_players; two_players] ]}));
    [by left | reflexivity | discriminate | simpl; lia].
Defined.
